(** * donkey-utils: the PCA9685 PWM driver and the normalized-motion mapping

    A shallow embedding of the three scripts of the repository

      - donkey_motor_test.py   ([DonkeyMotorTest]: PCA9685, DonkeyCarController)
      - demo_script.py         ([DemoScript]: PCA9685, PiRacerDemo, signal_handler)
      - steering_calibration.py ([SteeringCalibration]: PCA9685;
                                 [Binary64Driver]: quick_test_center)

    and the properties their specification states about them.

    Conventions of the embedding.

    - In the three script modules a Python [float] is a rational number ([Q])
      and its arithmetic is exact; [int(x)] is truncation toward zero.  The
      clamps, the bounds, the order of the counts and the register effects
      are stated on this model.
    - The module [Binary64Driver] is the driver once more with the floats as
      they are, IEEE-754 binary64 numbers (the kernel's primitive floats):
      every operation rounds, [/] raises on a zero divisor and [int] raises
      on an infinity or a NaN.  The counts that [set_pulse] and
      [init_pca9685] convert and write, and [quick_test_center] of
      steering_calibration.py, are stated on it ([Binary64DriverFacts]).
      The module [Binary64] holds the numeric kernels alone, and the lemmas
      named [b64_...] evaluate them at the inputs of the scenarios.
    - A Python [int] is a [Z]; [&] is [Z.land] and [>>] is [Z.shiftr].
    - A method is a function in the monad [M Self A]: it takes the object,
      returns a value or raises, and hands back the object as the method left
      it (an exception does not undo the writes made before it).
    - [print] and [time.sleep] have no effect on the modelled state and are
      left out; the comments say where they stand in the source. *)

From Stdlib Require Import ZArith QArith Qround Qabs Lia Lqa List Bool.
From Stdlib Require PrimFloat FloatOps SpecFloat Uint63.
From stdpp Require Import gmap.

Local Open Scope Z_scope.

(** ** Python numbers *)

(** [x < y] and [x > y] on floats. *)
Definition Qltb (x y : Q) : bool := negb (Qle_bool y x).
Definition Qgtb (x y : Q) : bool := Qltb y x.

(** [int(x)]: the integer part of [x], rounded toward zero. *)
Definition py_int (x : Q) : Z := Z.quot (Qnum x) (Zpos (Qden x)).

(** [round(x)]: the nearest integer, a tie going to the even one. *)
Definition py_round (x : Q) : Z :=
  let n := Qfloor x in
  match Qcompare (x - inject_Z n) (1 # 2) with
  | Lt => n
  | Gt => n + 1
  | Eq => if Z.even n then n else n + 1
  end.

(** [n] is an integer nearest to [x] (whatever the rule for ties). *)
Definition nearest_integer (x : Q) (n : Z) : Prop :=
  (Qabs (x - inject_Z n) <= 1 # 2)%Q.

(** [range(n)] *)
Definition range (n : nat) : list Z := map Z.of_nat (seq 0 n).

(** ** Exceptions and the method monad *)

(** The error taxonomy of the specification, with the Python exceptions the
    scripts can meet besides. *)
Inductive exn : Type :=
| BusUnavailable
| TransferError
| InvalidChannel
| OutOfRangeCalibration
| ZeroDivisionError
| SystemExit (code : Z)
| OverflowError
| ValueError.

Inductive result (A : Type) : Type :=
| Ok (a : A)
| Raise (e : exn).
Arguments Ok {A} a.
Arguments Raise {A} e.

Definition M (Self A : Type) : Type := Self -> result A * Self.

Definition ret {Self A} (a : A) : M Self A := fun self => (Ok a, self).

Definition raise {Self A} (e : exn) : M Self A := fun self => (Raise e, self).

Definition bind {Self A B} (m : M Self A) (k : A -> M Self B) : M Self B :=
  fun self =>
    match m self with
    | (Ok a, self') => k a self'
    | (Raise e, self') => (Raise e, self')
    end.

Definition gets {Self A} (f : Self -> A) : M Self A := fun self => (Ok (f self), self).

(** A pure computation that may raise, run inside a method. *)
Definition lift {Self A} (r : result A) : M Self A := fun self => (r, self).

(** A method of a field, run on the object that holds the field. *)
Definition zoom {Self T A} (get : Self -> T) (set : T -> Self -> Self)
    (m : M T A) : M Self A :=
  fun self => let (r, t) := m (get self) in (r, set t self).

Declare Scope py_scope.
Delimit Scope py_scope with py.
Notation "x <- m ;; k" := (bind m (fun x => k))
  (at level 100, m at next level, right associativity) : py_scope.
Notation "m ;; k" := (bind m (fun _ => k))
  (at level 100, right associativity) : py_scope.
Local Open Scope py_scope.

(** [for x in xs: body(x)] *)
Fixpoint for_each {Self A} (xs : list A) (body : A -> M Self unit) : M Self unit :=
  match xs with
  | [] => ret tt
  | x :: xs' => body x ;; for_each xs' body
  end.

(** [try: body finally: handler]: the handler runs whether the body
    returned or raised; what the body raised is raised again after it, unless
    the handler itself raises. *)
Definition try_finally {Self A} (body : M Self A) (handler : M Self unit) : M Self A :=
  fun self =>
    match body self with
    | (r, self') =>
      match handler self' with
      | (Ok _, self'') => (r, self'')
      | (Raise e, self'') => (Raise e, self'')
      end
    end.

(** [x / y] on floats. *)
Definition truediv (x y : Q) : result Q :=
  if Qeq_bool y 0 then Raise ZeroDivisionError else Ok (x / y)%Q.

(** ** The serial bus (smbus2.SMBus) *)

(** One transfer on the wire, with the arguments as the caller passed them. *)
Inductive transfer : Type :=
| WriteByte (i2c_addr register value : Z)
| ReadByte (i2c_addr register : Z).

(** Modelled from the spec: smbus2 is not part of the repository.  The bus
    moves 8-bit data to and from 8-bit registers of the device at a 7-bit
    address (section 6); a handle is open from [SMBus(channel)] until
    [close()], and no transfer is valid on a closed handle (4.1, 4.2).
    [devices] is the register file behind the bus, keyed by device address and
    register; [wire] is the history of transfers, oldest first. *)
Record SMBus : Type := mkSMBus {
  is_open : bool;
  devices : gmap (Z * Z) Z;
  wire : list transfer
}.

Definition byte (v : Z) : Z := Z.land v 0xFF.

Definition register_value (b : SMBus) (i2c_addr register : Z) : Z :=
  default 0 (devices b !! (i2c_addr, byte register)).

Definition SMBus_open (regs : gmap (Z * Z) Z) : SMBus :=
  {| is_open := true; devices := regs; wire := [] |}.

Definition write_byte_data (i2c_addr register value : Z) : M SMBus unit :=
  fun b =>
    if is_open b
    then (Ok tt, {| is_open := true;
                    devices := <[(i2c_addr, byte register) := byte value]> (devices b);
                    wire := wire b ++ [WriteByte i2c_addr register value] |})
    else (Raise TransferError, b).

Definition read_byte_data (i2c_addr register : Z) : M SMBus Z :=
  fun b =>
    if is_open b
    then (Ok (register_value b i2c_addr register),
          {| is_open := true; devices := devices b;
             wire := wire b ++ [ReadByte i2c_addr register] |})
    else (Raise TransferError, b).

Definition SMBus_close : M SMBus unit :=
  fun b => (Ok tt, {| is_open := false; devices := devices b; wire := wire b |}).

(** The writes among the transfers, as (register, value) pairs. *)
Definition writes (ts : list transfer) : list (Z * Z) :=
  flat_map (fun t => match t with
                     | WriteByte _ r v => [(r, v)]
                     | ReadByte _ _ => []
                     end) ts.

(** ** The PWM controller object

    The three scripts declare the same fields and the same [__init__] and
    [init_pca9685]; they differ in [set_pulse] and in which other methods they
    have. *)
Record PCA9685 : Type := mkPCA9685 {
  bus : SMBus;
  address : Z;
  frequency : Q
}.

Definition set_bus (b : SMBus) (self : PCA9685) : PCA9685 :=
  {| bus := b; address := address self; frequency := frequency self |}.

(** [self.bus.write_byte_data(self.address, register, value)] *)
Definition bus_write (register value : Z) : M PCA9685 unit :=
  addr <- gets address ;;
  zoom bus set_bus (write_byte_data addr register value).

(** [self.bus.read_byte_data(self.address, register)] *)
Definition bus_read (register : Z) : M PCA9685 Z :=
  addr <- gets address ;;
  zoom bus set_bus (read_byte_data addr register).

(** [int(25000000.0 / (4096.0 * self.frequency) - 1.0)] *)
Definition prescale_value (frequency : Q) : result Z :=
  match truediv 25000000 (4096 * frequency) with
  | Ok q => Ok (py_int (q - 1))
  | Raise e => Raise e
  end.

Definition init_pca9685 : M PCA9685 unit :=
  bus_write 0x00 0x00 ;;
  (* time.sleep(0.01) *)
  f <- gets frequency ;;
  prescale <- lift (prescale_value f) ;;
  old_mode <- bus_read 0x00 ;;
  let sleep_mode := Z.lor (Z.land old_mode 0x7F) 0x10 in
  bus_write 0x00 sleep_mode ;;
  bus_write 0xFE prescale ;;
  bus_write 0x00 old_mode ;;
  (* time.sleep(0.01) *)
  bus_write 0x00 (Z.lor old_mode 0x20).

(** [PCA9685(channel, address, frequency)], on a bus whose devices hold
    [regs]: the object after [__init__], or the exception [__init__] raised.
    [channel] only names the bus to open, which here is the one given by
    [regs]; opening it always succeeds. *)
Definition PCA9685_new (regs : gmap (Z * Z) Z) (address : Z) (frequency : Q)
  : result PCA9685 :=
  let self := {| bus := SMBus_open regs; address := address; frequency := frequency |} in
  match init_pca9685 self with
  | (Ok _, self') => Ok self'
  | (Raise e, _) => Raise e
  end.

(** [pulse_length = 1000000.0 / self.frequency / 4096.0]
    [pulse_value = int(pulse_ms * 1000.0 / pulse_length)] *)
Definition pulse_value (frequency pulse_ms : Q) : result Z :=
  match truediv 1000000 frequency with
  | Raise e => Raise e
  | Ok us_per_period =>
    match truediv us_per_period 4096 with
    | Raise e => Raise e
    | Ok pulse_length =>
      match truediv (pulse_ms * 1000) pulse_length with
      | Raise e => Raise e
      | Ok v => Ok (py_int v)
      end
    end
  end.

(** The body of [stop_all_channels], the same in the two scripts that have it. *)
Definition stop_channel (channel : Z) : M PCA9685 unit :=
  let base_reg := 0x06 + 4 * channel in
  bus_write base_reg 0 ;;
  bus_write (base_reg + 1) 0 ;;
  bus_write (base_reg + 2) 0 ;;
  bus_write (base_reg + 3) 0.

(** What a register of the controller's chip holds. *)
Definition register_of (self : PCA9685) (register : Z) : Z :=
  register_value (bus self) (address self) register.

(** The ON and OFF counts a channel's four registers hold (low byte, then
    high byte). *)
Definition on_ticks (self : PCA9685) (channel : Z) : Z :=
  let base_reg := 0x06 + 4 * channel in
  register_of self base_reg + 256 * register_of self (base_reg + 1).

Definition off_ticks (self : PCA9685) (channel : Z) : Z :=
  let base_reg := 0x06 + 4 * channel in
  register_of self (base_reg + 2) + 256 * register_of self (base_reg + 3).

(** ** donkey_motor_test.py *)
Module DonkeyMotorTest.

(** The pulse width [set_pulse] converts: [pulse_ms] after the two tests
    [if pulse_ms < 0.5: ... elif pulse_ms > 2.5: ...]. *)
Definition clamp_pulse (pulse_ms : Q) : Q :=
  if Qltb pulse_ms 0.5 then 0.5
  else if Qgtb pulse_ms 2.5 then 2.5
  else pulse_ms.

Definition set_pwm (channel on off : Z) : M PCA9685 unit :=
  let base_reg := 0x06 + 4 * channel in
  bus_write base_reg (Z.land on 0xFF) ;;
  bus_write (base_reg + 1) (Z.shiftr on 8) ;;
  bus_write (base_reg + 2) (Z.land off 0xFF) ;;
  bus_write (base_reg + 3) (Z.shiftr off 8).

Definition set_pulse (channel : Z) (pulse_ms : Q) : M PCA9685 unit :=
  let pulse_ms := clamp_pulse pulse_ms in
  f <- gets frequency ;;
  pulse_value <- lift (pulse_value f pulse_ms) ;;
  set_pwm channel 0 pulse_value.

Definition stop_all_channels : M PCA9685 unit :=
  for_each (range 16) stop_channel.
  (* print("All PWM channels completely stopped") *)

Definition close : M PCA9685 unit := zoom bus set_bus SMBus_close.

Record DonkeyCarController : Type := mkDonkeyCarController {
  pwm : PCA9685;
  steering_channel : Z;
  throttle_channel : Z;
  steering_center : Q;
  steering_range : Q;
  throttle_neutral : Q;
  throttle_range : Q
}.

Definition set_pwm_field (p : PCA9685) (self : DonkeyCarController)
  : DonkeyCarController :=
  {| pwm := p;
     steering_channel := steering_channel self;
     throttle_channel := throttle_channel self;
     steering_center := steering_center self;
     steering_range := steering_range self;
     throttle_neutral := throttle_neutral self;
     throttle_range := throttle_range self |}.

(** [self.pwm.method(...)] *)
Definition on_pwm {A} (m : M PCA9685 A) : M DonkeyCarController A :=
  zoom pwm set_pwm_field m.

Definition set_steering_center (center_ms : Q) : M DonkeyCarController unit :=
  fun self =>
    (Ok tt,
     {| pwm := pwm self;
        steering_channel := steering_channel self;
        throttle_channel := throttle_channel self;
        steering_center := center_ms;
        steering_range := steering_range self;
        throttle_neutral := throttle_neutral self;
        throttle_range := throttle_range self |}).

(** A normalized command after [if x < -1.0: x = -1.0 elif x > 1.0: x = 1.0]. *)
Definition clamp_command (x : Q) : Q :=
  if Qltb x (-1) then (-1)%Q
  else if Qgtb x 1 then 1%Q
  else x.

Definition set_steering (angle : Q) : M DonkeyCarController unit :=
  let angle := clamp_command angle in
  center <- gets steering_center ;;
  half_range <- gets steering_range ;;
  let pulse_ms := (center + angle * half_range)%Q in
  channel <- gets steering_channel ;;
  on_pwm (set_pulse channel pulse_ms).
  (* print(f"Steering: ...") *)

Definition set_throttle (speed : Q) : M DonkeyCarController unit :=
  let speed := clamp_command speed in
  neutral <- gets throttle_neutral ;;
  half_range <- gets throttle_range ;;
  let pulse_ms := (neutral + speed * half_range)%Q in
  channel <- gets throttle_channel ;;
  on_pwm (set_pulse channel pulse_ms).
  (* print(f"Throttle: ...") *)

Definition stop : M DonkeyCarController unit :=
  set_throttle 0 ;;
  set_steering 0.

Definition cleanup : M DonkeyCarController unit :=
  stop ;;
  on_pwm stop_all_channels ;;
  on_pwm close.

(** [DonkeyCarController()], on a bus whose devices hold [regs]:
    [PCA9685(frequency=60)] with the defaults [channel=1, address=0x40],
    the calibration constants, then the two neutral commands. *)
Definition DonkeyCarController_new (regs : gmap (Z * Z) Z)
  : result DonkeyCarController :=
  match PCA9685_new regs 0x40 60 with
  | Raise e => Raise e
  | Ok p =>
    let self := {| pwm := p;
                   steering_channel := 0;
                   throttle_channel := 1;
                   steering_center := 1.8;
                   steering_range := 0.5;
                   throttle_neutral := 1.5;
                   throttle_range := 0.4 |} in
    match (set_steering 0 ;; set_throttle 0) self with
    | (Ok _, self') => Ok self'
    | (Raise e, _) => Raise e
    end
  end.

End DonkeyMotorTest.

(** ** demo_script.py *)
Module DemoScript.

(** No test on [pulse_ms], and the four writes are made in place. *)
Definition set_pulse (channel : Z) (pulse_ms : Q) : M PCA9685 unit :=
  f <- gets frequency ;;
  pulse_value <- lift (pulse_value f pulse_ms) ;;
  let base_reg := 0x06 + 4 * channel in
  bus_write base_reg 0 ;;
  bus_write (base_reg + 1) 0 ;;
  bus_write (base_reg + 2) (Z.land pulse_value 0xFF) ;;
  bus_write (base_reg + 3) (Z.shiftr pulse_value 8).

Definition stop_all_channels : M PCA9685 unit :=
  for_each (range 16) stop_channel.

Definition close : M PCA9685 unit := zoom bus set_bus SMBus_close.

Record PiRacerDemo : Type := mkPiRacerDemo {
  pwm : PCA9685;
  steering_channel : Z;
  throttle_channel : Z;
  steering_center : Q;
  steering_left : Q;
  steering_right : Q;
  throttle_neutral : Q;
  throttle_slow_forward : Q
}.

Definition set_pwm_field (p : PCA9685) (self : PiRacerDemo) : PiRacerDemo :=
  {| pwm := p;
     steering_channel := steering_channel self;
     throttle_channel := throttle_channel self;
     steering_center := steering_center self;
     steering_left := steering_left self;
     steering_right := steering_right self;
     throttle_neutral := throttle_neutral self;
     throttle_slow_forward := throttle_slow_forward self |}.

Definition on_pwm {A} (m : M PCA9685 A) : M PiRacerDemo A :=
  zoom pwm set_pwm_field m.

Definition set_steering (pulse_ms : Q) : M PiRacerDemo unit :=
  channel <- gets steering_channel ;;
  on_pwm (set_pulse channel pulse_ms).

Definition set_throttle (pulse_ms : Q) : M PiRacerDemo unit :=
  channel <- gets throttle_channel ;;
  on_pwm (set_pulse channel pulse_ms).

Definition stop : M PiRacerDemo unit :=
  neutral <- gets throttle_neutral ;;
  set_throttle neutral ;;
  center <- gets steering_center ;;
  set_steering center.

Definition cleanup : M PiRacerDemo unit :=
  stop ;;
  (* time.sleep(0.5) *)
  on_pwm stop_all_channels ;;
  on_pwm close.
  (* print("Demo cleanup completed - all PWM stopped") *)

Definition PiRacerDemo_new (regs : gmap (Z * Z) Z) : result PiRacerDemo :=
  match PCA9685_new regs 0x40 60 with
  | Raise e => Raise e
  | Ok p =>
    let self := {| pwm := p;
                   steering_channel := 0;
                   throttle_channel := 1;
                   steering_center := 1.8;
                   steering_left := 1.55;
                   steering_right := 2.05;
                   throttle_neutral := 1.5;
                   throttle_slow_forward := 1.67 |} in
    match stop self with
    | (Ok _, self') => Ok self'
    | (Raise e, _) => Raise e
    end
  end.

(** [signal_handler(sig, frame)], a method of the module whose one piece
    of state is the global [demo]:
    [if demo: demo.cleanup()] and then [sys.exit(0)]. *)
Definition signal_handler : M (option PiRacerDemo) unit :=
  fun demo =>
    match demo with
    | Some d =>
      match cleanup d with
      | (Ok _, d') => (Raise (SystemExit 0), Some d')
      | (Raise e, d') => (Raise e, Some d')
      end
    | None => (Raise (SystemExit 0), None)
    end.

End DemoScript.

(** ** steering_calibration.py *)
Module SteeringCalibration.

Definition set_pwm (channel on off : Z) : M PCA9685 unit :=
  let base_reg := 0x06 + 4 * channel in
  bus_write base_reg (Z.land on 0xFF) ;;
  bus_write (base_reg + 1) (Z.shiftr on 8) ;;
  bus_write (base_reg + 2) (Z.land off 0xFF) ;;
  bus_write (base_reg + 3) (Z.shiftr off 8).

(** No test on [pulse_ms]: the script itself ends with
    [pwm.set_pulse(steering_channel, 0)] to stop the servo. *)
Definition set_pulse (channel : Z) (pulse_ms : Q) : M PCA9685 unit :=
  f <- gets frequency ;;
  pulse_value <- lift (pulse_value f pulse_ms) ;;
  set_pwm channel 0 pulse_value.

Definition close : M PCA9685 unit := zoom bus set_bus SMBus_close.

End SteeringCalibration.

(** ** The numeric kernels on binary64

    The same expressions as above, operation by operation, on the floats
    Python computes with (round to nearest, ties to even). *)
Module Binary64.
Import PrimFloat FloatOps SpecFloat.
#[local] Set Warnings "-inexact-float".
Local Open Scope float_scope.

(** [int(x)]: [None] where Python raises (an infinity or a NaN). *)
Definition py_int (x : float) : option Z :=
  match Prim2SF x with
  | S754_zero _ => Some 0%Z
  | S754_finite s m e =>
    let n := if (0 <=? e)%Z then (Zpos m * 2 ^ e)%Z else (Zpos m / 2 ^ (- e))%Z in
    Some (if s then (- n)%Z else n)
  | S754_infinity _ => None
  | S754_nan => None
  end.

(** [float(n)] for a Python int [0 <= n < 2^53], which converts exactly. *)
Definition of_int (n : Z) : float := of_uint63 (Uint63.of_Z n).

Definition prescale_value (frequency : float) : option Z :=
  py_int (25000000.0 / (4096.0 * frequency) - 1.0).

Definition pulse_value (frequency pulse_ms : float) : option Z :=
  let pulse_length := 1000000.0 / frequency / 4096.0 in
  py_int (pulse_ms * 1000.0 / pulse_length).

Definition clamp_pulse (pulse_ms : float) : float :=
  if pulse_ms <? 0.5 then 0.5
  else if 2.5 <? pulse_ms then 2.5
  else pulse_ms.

Definition clamp_command (x : float) : float :=
  if x <? -1.0 then -1.0
  else if 1.0 <? x then 1.0
  else x.

(** [center + (command * half_range)] of [set_steering] and [set_throttle]. *)
Definition axis_pulse (center half_range command : float) : float :=
  center + clamp_command command * half_range.

End Binary64.

(** At the integer frequency [f], the binary64 prescale is the one the exact
    computation gives. *)
Definition prescale_agrees (f : Z) : bool :=
  match Binary64.prescale_value (Binary64.of_int f), prescale_value (inject_Z f) with
  | Some a, Ok b => a =? b
  | _, _ => false
  end.

(** ** The driver on binary64

    [set_pulse], [init_pca9685] and [quick_test_center] once more, with
    Python's floats as they are: every [*], [/], [+] and [-] is the binary64
    operation (round to nearest, ties to even), [/] raises ZeroDivisionError
    on a zero divisor, and [int] raises OverflowError on an infinity and
    ValueError on a NaN.  The frequency is the float the object's arithmetic
    uses ([4096.0 * self.frequency] converts a Python int first; 60 converts
    exactly). *)
Module Binary64Driver.
Import PrimFloat FloatOps SpecFloat.
#[local] Set Warnings "-inexact-float".

(** The rational number a finite float is: [m * 2^e], signed. *)
Definition value (x : float) : option Q :=
  match Prim2SF x with
  | S754_zero _ => Some 0%Q
  | S754_finite s m e =>
    let magnitude :=
      if 0 <=? e then inject_Z (Zpos m * 2 ^ e)
      else (Zpos m # Z.to_pos (2 ^ (- e)))%Q in
    Some (if s then (- magnitude)%Q else magnitude)
  | S754_infinity _ => None
  | S754_nan => None
  end.

(** [int(x)] *)
Definition float_to_int (x : float) : result Z :=
  match Prim2SF x with
  | S754_zero _ => Ok 0
  | S754_finite s m e =>
    let n := if 0 <=? e then Zpos m * 2 ^ e else Zpos m / 2 ^ (- e) in
    Ok (if s then - n else n)
  | S754_infinity _ => Raise OverflowError
  | S754_nan => Raise ValueError
  end.

(** [x / y] *)
Definition truediv (x y : float) : result float :=
  if (y =? 0)%float then Raise ZeroDivisionError else Ok (x / y)%float.

Record PCA9685 : Type := mkPCA9685 {
  bus : SMBus;
  address : Z;
  frequency : float
}.

Definition set_bus (b : SMBus) (self : PCA9685) : PCA9685 :=
  {| bus := b; address := address self; frequency := frequency self |}.

Definition bus_write (register value : Z) : M PCA9685 unit :=
  addr <- gets address ;;
  zoom bus set_bus (write_byte_data addr register value).

Definition bus_read (register : Z) : M PCA9685 Z :=
  addr <- gets address ;;
  zoom bus set_bus (read_byte_data addr register).

(** [int(25000000.0 / (4096.0 * self.frequency) - 1.0)] *)
Definition prescale_value (frequency : float) : result Z :=
  match truediv 25000000.0 (4096.0 * frequency) with
  | Ok q => float_to_int (q - 1.0)
  | Raise e => Raise e
  end.

Definition init_pca9685 : M PCA9685 unit :=
  bus_write 0x00 0x00 ;;
  (* time.sleep(0.01) *)
  f <- gets frequency ;;
  prescale <- lift (prescale_value f) ;;
  old_mode <- bus_read 0x00 ;;
  let sleep_mode := Z.lor (Z.land old_mode 0x7F) 0x10 in
  bus_write 0x00 sleep_mode ;;
  bus_write 0xFE prescale ;;
  bus_write 0x00 old_mode ;;
  (* time.sleep(0.01) *)
  bus_write 0x00 (Z.lor old_mode 0x20).

Definition PCA9685_new (regs : gmap (Z * Z) Z) (address : Z) (frequency : float)
  : result PCA9685 :=
  let self := {| bus := SMBus_open regs; address := address; frequency := frequency |} in
  match init_pca9685 self with
  | (Ok _, self') => Ok self'
  | (Raise e, _) => Raise e
  end.

(** [pulse_length = 1000000.0 / self.frequency / 4096.0]
    [pulse_value = int(pulse_ms * 1000.0 / pulse_length)] *)
Definition pulse_value (frequency pulse_ms : float) : result Z :=
  match truediv 1000000.0 frequency with
  | Raise e => Raise e
  | Ok us_per_period =>
    match truediv us_per_period 4096.0 with
    | Raise e => Raise e
    | Ok pulse_length =>
      match truediv (pulse_ms * 1000.0) pulse_length with
      | Raise e => Raise e
      | Ok v => float_to_int v
      end
    end
  end.

(** The float [pulse_value] hands to [int], when no division raised. *)
Definition pulse_quotient (frequency pulse_ms : float) : float :=
  (pulse_ms * 1000.0 / (1000000.0 / frequency / 4096.0))%float.


(** [if pulse_ms < 0.5: ... elif pulse_ms > 2.5: ...] *)
Definition clamp_pulse (pulse_ms : float) : float :=
  if (pulse_ms <? 0.5)%float then 0.5%float
  else if (2.5 <? pulse_ms)%float then 2.5%float
  else pulse_ms.

(** [set_pwm], of donkey_motor_test.py and steering_calibration.py. *)
Definition set_pwm (channel on off : Z) : M PCA9685 unit :=
  let base_reg := 0x06 + 4 * channel in
  bus_write base_reg (Z.land on 0xFF) ;;
  bus_write (base_reg + 1) (Z.shiftr on 8) ;;
  bus_write (base_reg + 2) (Z.land off 0xFF) ;;
  bus_write (base_reg + 3) (Z.shiftr off 8).


(** [set_pulse] of steering_calibration.py. *)
Definition set_pulse (channel : Z) (pulse_ms : float) : M PCA9685 unit :=
  f <- gets frequency ;;
  pulse_value <- lift (pulse_value f pulse_ms) ;;
  set_pwm channel 0 pulse_value.


Definition close : M PCA9685 unit := zoom bus set_bus SMBus_close.

(** [quick_test_center(center_ms)] of steering_calibration.py, on a bus
    whose devices hold [regs]: [pwm = PCA9685()] with the defaults
    [address=0x40, frequency=60], the five positions on channel 1 inside
    [try], and in [finally] the pulse of width 0 and [pwm.close()].  The
    result comes with the controller as the function left it, when the
    constructor returned one. *)
Definition quick_test_center (regs : gmap (Z * Z) Z) (center_ms : float)
  : result unit * option PCA9685 :=
  match PCA9685_new regs 0x40 60%float with
  | Raise e => (Raise e, None)
  | Ok pwm =>
    let steering_channel := 1 in
    let (r, pwm') :=
      try_finally
        (set_pulse steering_channel center_ms ;;
         (* time.sleep(2) *)
         set_pulse steering_channel (center_ms - 0.3)%float ;;
         set_pulse steering_channel center_ms ;;
         set_pulse steering_channel (center_ms + 0.3)%float ;;
         set_pulse steering_channel center_ms)
        (set_pulse steering_channel 0%float ;;
         close)
        pwm in
    (r, Some pwm')
  end.

(** What a register of the controller's chip holds, and the counts of a
    channel. *)
Definition register_of (self : PCA9685) (register : Z) : Z :=
  register_value (bus self) (address self) register.

Definition on_ticks (self : PCA9685) (channel : Z) : Z :=
  let base_reg := 0x06 + 4 * channel in
  register_of self base_reg + 256 * register_of self (base_reg + 1).

Definition off_ticks (self : PCA9685) (channel : Z) : Z :=
  let base_reg := 0x06 + 4 * channel in
  register_of self (base_reg + 2) + 256 * register_of self (base_reg + 3).

(** The object after one successful write, one successful read, the four
    writes of a channel, a successful [init_pca9685], and [close()]. *)
Definition wrote (self : PCA9685) (register value : Z) : PCA9685 :=
  set_bus {| is_open := true;
             devices := <[(address self, byte register) := byte value]> (devices (bus self));
             wire := wire (bus self) ++ [WriteByte (address self) register value] |}
          self.

Definition did_read (self : PCA9685) (register : Z) : PCA9685 :=
  set_bus {| is_open := true;
             devices := devices (bus self);
             wire := wire (bus self) ++ [ReadByte (address self) register] |}
          self.

Definition wrote_channel (self : PCA9685) (channel on off : Z) : PCA9685 :=
  let base_reg := 0x06 + 4 * channel in
  wrote (wrote (wrote (wrote self base_reg (Z.land on 0xFF))
                      (base_reg + 1) (Z.shiftr on 8))
               (base_reg + 2) (Z.land off 0xFF))
        (base_reg + 3) (Z.shiftr off 8).

Definition initialised (self : PCA9685) (prescale : Z) : PCA9685 :=
  wrote (wrote (wrote (wrote (did_read (wrote self 0x00 0x00) 0x00)
                             0x00 0x10)
                      0xFE prescale)
               0x00 0x00)
        0x00 0x20.

Definition closed (self : PCA9685) : PCA9685 :=
  set_bus {| is_open := false; devices := devices (bus self); wire := wire (bus self) |}
          self.

(** [PCA9685(frequency=60)] as [__init__] has stored its fields, before
    [init_pca9685] runs, on a bus whose registers were never written. *)
Definition pca_60 : PCA9685 :=
  {| bus := SMBus_open ∅; address := 0x40; frequency := 60%float |}.

End Binary64Driver.

(** ** Objects the examples run on *)

(** [PCA9685(frequency=60)] as [__init__] has stored its fields, before
    [init_pca9685] runs, on a bus whose registers were never written. *)
Definition pca_60 : PCA9685 :=
  {| bus := SMBus_open ∅; address := 0x40; frequency := 60 |}.

(** The four transfers that set a channel's ON and OFF counts. *)
Definition channel_writes (i2c_addr channel on off : Z) : list transfer :=
  [ WriteByte i2c_addr (0x06 + 4 * channel) (Z.land on 0xFF);
    WriteByte i2c_addr (0x06 + 4 * channel + 1) (Z.shiftr on 8);
    WriteByte i2c_addr (0x06 + 4 * channel + 2) (Z.land off 0xFF);
    WriteByte i2c_addr (0x06 + 4 * channel + 3) (Z.shiftr off 8) ].

(** The object after one successful register write. *)
Definition wrote (self : PCA9685) (register value : Z) : PCA9685 :=
  set_bus {| is_open := true;
             devices := <[(address self, byte register) := byte value]> (devices (bus self));
             wire := wire (bus self) ++ [WriteByte (address self) register value] |}
          self.

(** The object after the four successful writes of [set_pwm]. *)
Definition wrote_channel (self : PCA9685) (channel on off : Z) : PCA9685 :=
  let base_reg := 0x06 + 4 * channel in
  wrote (wrote (wrote (wrote self base_reg (Z.land on 0xFF))
                      (base_reg + 1) (Z.shiftr on 8))
               (base_reg + 2) (Z.land off 0xFF))
        (base_reg + 3) (Z.shiftr off 8).

(** The object after [close()]. *)
Definition closed (self : PCA9685) : PCA9685 :=
  set_bus {| is_open := false; devices := devices (bus self); wire := wire (bus self) |}
          self.

(** The object after one successful register read. *)
Definition did_read (self : PCA9685) (register : Z) : PCA9685 :=
  set_bus {| is_open := true;
             devices := devices (bus self);
             wire := wire (bus self) ++ [ReadByte (address self) register] |}
          self.

(** The object after a successful [init_pca9685] that wrote [prescale]. *)
Definition initialised (self : PCA9685) (prescale : Z) : PCA9685 :=
  wrote (wrote (wrote (wrote (did_read (wrote self 0x00 0x00) 0x00)
                             0x00 0x10)
                      0xFE prescale)
               0x00 0x00)
        0x00 0x20.

(** The object after the writes of [stop_all_channels] over [channels]. *)
Definition stopped (self : PCA9685) (channels : list Z) : PCA9685 :=
  fold_left (fun s channel => wrote_channel s channel 0 0) channels self.

(** The two application objects with their fields as [__init__] stores
    them, on [pca_60], before the first neutral commands. *)
Definition car_60 : DonkeyMotorTest.DonkeyCarController :=
  {| DonkeyMotorTest.pwm := pca_60;
     DonkeyMotorTest.steering_channel := 0;
     DonkeyMotorTest.throttle_channel := 1;
     DonkeyMotorTest.steering_center := 1.8;
     DonkeyMotorTest.steering_range := 0.5;
     DonkeyMotorTest.throttle_neutral := 1.5;
     DonkeyMotorTest.throttle_range := 0.4 |}.

Definition demo_60 : DemoScript.PiRacerDemo :=
  {| DemoScript.pwm := pca_60;
     DemoScript.steering_channel := 0;
     DemoScript.throttle_channel := 1;
     DemoScript.steering_center := 1.8;
     DemoScript.steering_left := 1.55;
     DemoScript.steering_right := 2.05;
     DemoScript.throttle_neutral := 1.5;
     DemoScript.throttle_slow_forward := 1.67 |}.

(** The integer frequencies 1 .. 7000 Hz. *)
Definition integer_frequencies : list Z := map Z.of_nat (seq 1 (Z.to_nat 7000)).

(** * Properties *)

(** ** Comparisons and [int] *)

Lemma Qltb_lt (x y : Q) : Qltb x y = true <-> (x < y)%Q.
Proof.
  unfold Qltb. rewrite negb_true_iff. split; intros H.
  - apply Qnot_le_lt. intros Hle. apply Qle_bool_iff in Hle. congruence.
  - destruct (Qle_bool y x) eqn:E; [|reflexivity].
    apply Qle_bool_iff in E. exfalso. exact (Qlt_not_le _ _ H E).
Qed.

Lemma Qltb_ge (x y : Q) : Qltb x y = false <-> (y <= x)%Q.
Proof.
  unfold Qltb. rewrite negb_false_iff. apply Qle_bool_iff.
Qed.

Lemma Qeq_bool_false (x y : Q) : ~ (x == y)%Q -> Qeq_bool x y = false.
Proof.
  intros H. destruct (Qeq_bool x y) eqn:E; [|reflexivity].
  apply Qeq_bool_iff in E. contradiction.
Qed.

Lemma py_int_nonneg (x : Q) : (0 <= x)%Q -> py_int x = Qfloor x.
Proof.
  destruct x as [n d]. unfold Qle, py_int, Qfloor. simpl. intros H.
  apply Z.quot_div_nonneg; lia.
Qed.

Lemma py_int_nonpos (x : Q) : (x <= 0)%Q -> py_int x = Qceiling x.
Proof.
  destruct x as [n d]. unfold Qle, py_int, Qceiling, Qfloor. simpl. intros H.
  rewrite <- (Z.opp_involutive n) at 1. rewrite Z.quot_opp_l by lia.
  f_equal. apply Z.quot_div_nonneg; lia.
Qed.

(** [int] sees the number, not the fraction that writes it. *)
Lemma py_int_comp (x y : Q) : (x == y)%Q -> py_int x = py_int y.
Proof.
  intros E. destruct (Qlt_le_dec x 0) as [Hx|Hx].
  - rewrite !py_int_nonpos.
    + now rewrite E.
    + rewrite <- E. now apply Qlt_le_weak.
    + now apply Qlt_le_weak.
  - rewrite !py_int_nonneg.
    + now rewrite E.
    + now rewrite <- E.
    + assumption.
Qed.

Lemma py_int_mono (x y : Q) : (x <= y)%Q -> py_int x <= py_int y.
Proof.
  intros L. destruct (Qlt_le_dec x 0) as [Hx|Hx].
  - apply Qlt_le_weak in Hx. rewrite (py_int_nonpos x Hx).
    destruct (Qlt_le_dec y 0) as [Hy|Hy].
    + rewrite (py_int_nonpos y) by now apply Qlt_le_weak.
      now apply Qceiling_resp_le.
    + rewrite (py_int_nonneg y Hy).
      transitivity 0.
      * change 0 with (Qceiling 0). now apply Qceiling_resp_le.
      * change 0 with (Qfloor 0). now apply Qfloor_resp_le.
  - rewrite (py_int_nonneg x Hx), (py_int_nonneg y) by now apply Qle_trans with x.
    now apply Qfloor_resp_le.
Qed.


(** [round] returns a nearest integer. *)
Lemma py_round_nearest (x : Q) : nearest_integer x (py_round x).
Proof.
  unfold nearest_integer, py_round.
  pose proof (Qfloor_le x) as Hlo. pose proof (Qlt_floor x) as Hhi.
  set (n := Qfloor x) in *.
  assert (Hup : (inject_Z (n + 1) == inject_Z n + 1)%Q) by (rewrite inject_Z_plus; reflexivity).
  rewrite Hup in Hhi.
  assert (Near : (x - inject_Z n <= 1 # 2)%Q -> (Qabs (x - inject_Z n) <= 1 # 2)%Q).
  { intros H. apply Qabs_Qle_condition. split; [|exact H].
    apply Qle_trans with 0%Q; [discriminate|]. lra. }
  assert (Far : (1 # 2 <= x - inject_Z n)%Q -> (Qabs (x - inject_Z (n + 1)) <= 1 # 2)%Q).
  { intros H. apply Qabs_Qle_condition. rewrite Hup. split; lra. }
  destruct (Qcompare (x - inject_Z n) (1 # 2)) eqn:C.
  - apply Qeq_alt in C. destruct (Z.even n).
    + apply Near. rewrite C. apply Qle_refl.
    + apply Far. rewrite C. apply Qle_refl.
  - apply Qlt_alt in C. apply Near. now apply Qlt_le_weak.
  - apply Qgt_alt in C. apply Far. now apply Qlt_le_weak.
Qed.

(** ** The two conversions *)

Lemma prescale_value_eq (f : Q) :
  ~ (f == 0)%Q -> prescale_value f = Ok (py_int (25000000 / (4096 * f) - 1)).
Proof.
  intros H. unfold prescale_value, truediv.
  rewrite Qeq_bool_false; [reflexivity|].
  intros E. apply H. lra.
Qed.

Lemma prescale_value_zero (f : Q) :
  (f == 0)%Q -> prescale_value f = Raise ZeroDivisionError.
Proof.
  intros H. unfold prescale_value, truediv.
  assert (E : Qeq_bool (4096 * f) 0 = true) by (apply Qeq_bool_iff; lra).
  now rewrite E.
Qed.

Lemma pulse_value_eq (f p : Q) :
  ~ (f == 0)%Q -> pulse_value f p = Ok (py_int (p * f * 4096 / 1000)).
Proof.
  intros H. unfold pulse_value, truediv.
  rewrite (Qeq_bool_false f 0 H).
  change (Qeq_bool 4096 0) with false. cbv iota.
  rewrite Qeq_bool_false.
  - f_equal. apply py_int_comp. field. exact H.
  - intros E. apply H.
    assert (X : (1000000 == 1000000 / f / 4096 * (4096 * f))%Q) by (field; exact H).
    rewrite E, Qmult_0_l in X. discriminate X.
Qed.

Lemma pulse_value_zero (f p : Q) :
  (f == 0)%Q -> pulse_value f p = Raise ZeroDivisionError.
Proof.
  intros H. unfold pulse_value, truediv.
  apply Qeq_bool_iff in H. now rewrite H.
Qed.

Lemma pulse_value_comp (f f' p p' : Q) :
  (f == f')%Q -> (p == p')%Q -> pulse_value f p = pulse_value f' p'.
Proof.
  intros Ef Ep. destruct (Qeq_dec f 0) as [Z|NZ].
  - rewrite !pulse_value_zero; [reflexivity| now rewrite <- Ef | exact Z].
  - rewrite !pulse_value_eq; [| now rewrite <- Ef | exact NZ].
    f_equal. apply py_int_comp. now rewrite Ef, Ep.
Qed.

(** ** Clamping *)

Lemma clamp_pulse_range (p : Q) :
  (0.5 <= DonkeyMotorTest.clamp_pulse p /\ DonkeyMotorTest.clamp_pulse p <= 2.5)%Q.
Proof.
  unfold DonkeyMotorTest.clamp_pulse, Qgtb.
  destruct (Qltb p 0.5) eqn:Lo.
  - split; discriminate.
  - apply Qltb_ge in Lo. destruct (Qltb 2.5 p) eqn:Hi.
    + split; discriminate.
    + apply Qltb_ge in Hi. now split.
Qed.

Lemma clamp_pulse_cases (p : Q) :
  ((p < 0.5)%Q /\ DonkeyMotorTest.clamp_pulse p = 0.5%Q)
  \/ ((2.5 < p)%Q /\ DonkeyMotorTest.clamp_pulse p = 2.5%Q)
  \/ ((0.5 <= p)%Q /\ (p <= 2.5)%Q /\ DonkeyMotorTest.clamp_pulse p = p).
Proof.
  unfold DonkeyMotorTest.clamp_pulse, Qgtb.
  destruct (Qltb p 0.5) eqn:Lo.
  - left. apply Qltb_lt in Lo. now split.
  - apply Qltb_ge in Lo. destruct (Qltb 2.5 p) eqn:Hi.
    + right; left. apply Qltb_lt in Hi. now split.
    + right; right. apply Qltb_ge in Hi. now repeat split.
Qed.

Lemma clamp_pulse_comp (p q : Q) :
  (p == q)%Q -> (DonkeyMotorTest.clamp_pulse p == DonkeyMotorTest.clamp_pulse q)%Q.
Proof.
  intros E.
  destruct (clamp_pulse_cases p) as [[Hp ->]|[[Hp ->]|(Hp1 & Hp2 & ->)]];
    destruct (clamp_pulse_cases q) as [[Hq ->]|[[Hq ->]|(Hq1 & Hq2 & ->)]];
    try reflexivity; try exact E; lra.
Qed.

Lemma clamp_command_cases (x : Q) :
  ((x < -1)%Q /\ DonkeyMotorTest.clamp_command x = (-1)%Q)
  \/ ((1 < x)%Q /\ DonkeyMotorTest.clamp_command x = 1%Q)
  \/ ((-1 <= x)%Q /\ (x <= 1)%Q /\ DonkeyMotorTest.clamp_command x = x).
Proof.
  unfold DonkeyMotorTest.clamp_command, Qgtb.
  destruct (Qltb x (-1)) eqn:Lo.
  - left. apply Qltb_lt in Lo. now split.
  - apply Qltb_ge in Lo. destruct (Qltb 1 x) eqn:Hi.
    + right; left. apply Qltb_lt in Hi. now split.
    + right; right. apply Qltb_ge in Hi. now repeat split.
Qed.

Lemma clamp_command_range (x : Q) :
  (-1 <= DonkeyMotorTest.clamp_command x /\ DonkeyMotorTest.clamp_command x <= 1)%Q.
Proof.
  destruct (clamp_command_cases x) as [[H ->]|[[H ->]|(H1 & H2 & ->)]];
    split; try discriminate; assumption.
Qed.

(** At 60 Hz the clamped pulse widths convert to 122 .. 614. *)
Lemma ticks_of_clamped_60 (f p : Q) :
  (f == 60)%Q ->
  exists t, pulse_value f (DonkeyMotorTest.clamp_pulse p) = Ok t /\ 122 <= t <= 614.
Proof.
  intros Ef. destruct (clamp_pulse_range p) as [Lo Hi].
  generalize dependent (DonkeyMotorTest.clamp_pulse p). intros c Lo Hi.
  rewrite (pulse_value_comp f 60 c c Ef (Qeq_refl c)).
  rewrite pulse_value_eq by discriminate.
  eexists; split; [reflexivity|]. split.
  - change 122 with (py_int (0.5 * 60 * 4096 / 1000)). apply py_int_mono.
    apply Qmult_le_compat_r; [lra | discriminate].
  - change 614 with (py_int (2.5 * 60 * 4096 / 1000)). apply py_int_mono.
    apply Qmult_le_compat_r; [lra | discriminate].
Qed.

(** ** Register writes *)

Lemma set_bus_bus (self : PCA9685) : set_bus (bus self) self = self.
Proof. now destruct self. Qed.

Lemma bus_write_open (r v : Z) (self : PCA9685) :
  is_open (bus self) = true -> bus_write r v self = (Ok tt, wrote self r v).
Proof.
  intros H. unfold bus_write, bind, gets, zoom, write_byte_data. simpl.
  now rewrite H.
Qed.

Lemma bus_write_closed (r v : Z) (self : PCA9685) :
  is_open (bus self) = false -> bus_write r v self = (Raise TransferError, self).
Proof.
  intros H. unfold bus_write, bind, gets, zoom, write_byte_data. simpl.
  now rewrite H, set_bus_bus.
Qed.

Lemma wrote_open (self : PCA9685) (r v : Z) : is_open (bus (wrote self r v)) = true.
Proof. reflexivity. Qed.

Lemma wrote_address (self : PCA9685) (r v : Z) : address (wrote self r v) = address self.
Proof. reflexivity. Qed.

Lemma wrote_frequency (self : PCA9685) (r v : Z) :
  frequency (wrote self r v) = frequency self.
Proof. reflexivity. Qed.

Lemma wrote_channel_open (self : PCA9685) (ch on off : Z) :
  is_open (bus (wrote_channel self ch on off)) = true.
Proof. reflexivity. Qed.

Lemma wrote_channel_address (self : PCA9685) (ch on off : Z) :
  address (wrote_channel self ch on off) = address self.
Proof. reflexivity. Qed.

Lemma wrote_channel_frequency (self : PCA9685) (ch on off : Z) :
  frequency (wrote_channel self ch on off) = frequency self.
Proof. reflexivity. Qed.

Lemma wrote_channel_wire (self : PCA9685) (ch on off : Z) :
  wire (bus (wrote_channel self ch on off))
  = wire (bus self) ++ channel_writes (address self) ch on off.
Proof.
  unfold wrote_channel, wrote, channel_writes. simpl.
  now rewrite <- !app_assoc.
Qed.

Lemma byte_range (v : Z) : 0 <= byte v < 256.
Proof.
  unfold byte. change 0xFF with (Z.ones 8). rewrite Z.land_ones by lia.
  apply Z.mod_pos_bound. lia.
Qed.

Lemma byte_small (v : Z) : 0 <= v < 256 -> byte v = v.
Proof.
  intros H. unfold byte. change 0xFF with (Z.ones 8). rewrite Z.land_ones by lia.
  now apply Z.mod_small.
Qed.

Lemma register_of_wrote (self : PCA9685) (r v r' : Z) :
  register_of (wrote self r v) r'
  = if decide (byte r' = byte r) then byte v else register_of self r'.
Proof.
  unfold register_of, register_value, wrote. simpl.
  destruct (decide (byte r' = byte r)) as [E|N].
  - now rewrite E, lookup_insert_eq.
  - rewrite lookup_insert_ne; [reflexivity|]. intros [= E]. now apply N.
Qed.

(** A write of 0 leaves at 0 whatever was 0. *)
Lemma wrote_zero_keeps (self : PCA9685) (r r' : Z) :
  register_of self r' = 0 -> register_of (wrote self r 0) r' = 0.
Proof.
  intros H. rewrite register_of_wrote. now destruct (decide _).
Qed.

Lemma wrote_zero_sets (self : PCA9685) (r r' : Z) :
  byte r' = byte r -> register_of (wrote self r 0) r' = 0.
Proof.
  intros H. rewrite register_of_wrote. now destruct (decide _).
Qed.

(** The two bytes [set_pwm] writes for a count put the count back together. *)
Lemma split_count (t : Z) :
  0 <= t < 65536 -> byte (Z.land t 0xFF) + 256 * byte (Z.shiftr t 8) = t.
Proof.
  intros H. unfold byte. change 0xFF with (Z.ones 8).
  rewrite !Z.land_ones, Z.shiftr_div_pow2 by lia.
  change (2 ^ 8) with 256.
  rewrite Z.mod_mod by lia.
  rewrite (Z.mod_small (t / 256)).
  - pose proof (Z.div_mod t 256). lia.
  - split; [apply Z.div_pos; lia | apply Z.div_lt_upper_bound; lia].
Qed.

Lemma ticks_wrote_channel (self : PCA9685) (ch on off : Z) :
  0 <= ch <= 15 -> 0 <= on < 65536 -> 0 <= off < 65536 ->
  on_ticks (wrote_channel self ch on off) ch = on
  /\ off_ticks (wrote_channel self ch on off) ch = off.
Proof.
  intros Hc Hon Hoff. unfold on_ticks, off_ticks, wrote_channel.
  rewrite !register_of_wrote.
  rewrite !(byte_small (6 + 4 * ch)), !(byte_small (6 + 4 * ch + 1)),
    !(byte_small (6 + 4 * ch + 2)), !(byte_small (6 + 4 * ch + 3)) by lia.
  repeat (destruct (decide _) as [?|?]; try lia).
  split; now apply split_count.
Qed.

(** ** [set_pwm] and [set_pulse] *)

Lemma set_pwm_open (ch on off : Z) (self : PCA9685) :
  is_open (bus self) = true ->
  DonkeyMotorTest.set_pwm ch on off self = (Ok tt, wrote_channel self ch on off).
Proof.
  intros H. unfold DonkeyMotorTest.set_pwm, wrote_channel, bind.
  rewrite (bus_write_open _ _ self H).
  now rewrite !bus_write_open by reflexivity.
Qed.

Lemma set_pwm_closed (ch on off : Z) (self : PCA9685) :
  is_open (bus self) = false ->
  DonkeyMotorTest.set_pwm ch on off self = (Raise TransferError, self).
Proof.
  intros H. unfold DonkeyMotorTest.set_pwm, bind.
  now rewrite (bus_write_closed _ _ self H).
Qed.

Lemma set_pulse_run (ch : Z) (p : Q) (self : PCA9685) :
  DonkeyMotorTest.set_pulse ch p self
  = match pulse_value (frequency self) (DonkeyMotorTest.clamp_pulse p) with
    | Ok t => DonkeyMotorTest.set_pwm ch 0 t self
    | Raise e => (Raise e, self)
    end.
Proof.
  unfold DonkeyMotorTest.set_pulse, bind, gets, lift.
  now destruct (pulse_value _ _).
Qed.

Lemma demo_set_pulse_run (ch : Z) (p : Q) (self : PCA9685) :
  DemoScript.set_pulse ch p self
  = match pulse_value (frequency self) p with
    | Ok t => DonkeyMotorTest.set_pwm ch 0 t self
    | Raise e => (Raise e, self)
    end.
Proof.
  unfold DemoScript.set_pulse, DonkeyMotorTest.set_pwm, bind, gets, lift.
  now destruct (pulse_value _ _).
Qed.

Lemma calibration_set_pulse_run (ch : Z) (p : Q) (self : PCA9685) :
  SteeringCalibration.set_pulse ch p self = DemoScript.set_pulse ch p self.
Proof.
  unfold SteeringCalibration.set_pulse, DemoScript.set_pulse, bind, gets, lift.
  destruct (pulse_value _ _); reflexivity.
Qed.

Lemma set_pulse_open (ch : Z) (p : Q) (self : PCA9685) :
  is_open (bus self) = true -> ~ (frequency self == 0)%Q ->
  DonkeyMotorTest.set_pulse ch p self
  = (Ok tt, wrote_channel self ch 0
              (py_int (DonkeyMotorTest.clamp_pulse p * frequency self * 4096 / 1000))).
Proof.
  intros Hopen Hf.
  now rewrite set_pulse_run, pulse_value_eq, set_pwm_open.
Qed.

Lemma demo_set_pulse_open (ch : Z) (p : Q) (self : PCA9685) :
  is_open (bus self) = true -> ~ (frequency self == 0)%Q ->
  DemoScript.set_pulse ch p self
  = (Ok tt, wrote_channel self ch 0 (py_int (p * frequency self * 4096 / 1000))).
Proof.
  intros Hopen Hf.
  now rewrite demo_set_pulse_run, pulse_value_eq, set_pwm_open.
Qed.

Lemma set_pulse_closed (ch : Z) (p : Q) (self : PCA9685) :
  is_open (bus self) = false -> ~ (frequency self == 0)%Q ->
  DonkeyMotorTest.set_pulse ch p self = (Raise TransferError, self).
Proof.
  intros Hclosed Hf.
  now rewrite set_pulse_run, pulse_value_eq, set_pwm_closed.
Qed.

Lemma demo_set_pulse_closed (ch : Z) (p : Q) (self : PCA9685) :
  is_open (bus self) = false -> ~ (frequency self == 0)%Q ->
  DemoScript.set_pulse ch p self = (Raise TransferError, self).
Proof.
  intros Hclosed Hf.
  now rewrite demo_set_pulse_run, pulse_value_eq, set_pwm_closed.
Qed.

(** ** C1: clamping of the pulse width *)




(** ** C7: the channel argument of [set_pwm] *)




(** A channel argument of 62 reaches the prescale and the mode registers:
    [0x06 + 4 * 62] is [0xFE], and the third write lands on register 0. *)
Lemma set_pwm_channel_62_overwrites_prescale :
  register_of (snd (DonkeyMotorTest.set_pwm 62 0 368 (wrote pca_60 0xFE 100))) 0xFE = 0
  /\ register_of (snd (DonkeyMotorTest.set_pwm 62 0 368 (wrote pca_60 0xFE 100))) 0x00 = 112.
Proof.
  split; reflexivity.
Qed.

(** ** C9 and C10: the counts and the bytes written at 60 Hz *)

Lemma count_bytes (t : Z) :
  122 <= t <= 614 ->
  0 <= Z.land t 0xFF <= 255 /\ 0 <= Z.shiftr t 8 <= 2.
Proof.
  intros H. split.
  - pose proof (byte_range t) as B. unfold byte in B. lia.
  - rewrite Z.shiftr_div_pow2 by lia. change (2 ^ 8) with 256. split.
    + apply Z.div_pos; lia.
    + apply Z.lt_succ_r. apply Z.div_lt_upper_bound; lia.
Qed.




(** C10.  With [set_pulse] and [set_pwm] of donkey_motor_test.py at 60 Hz,
    for every channel in [0, 15] and every pulse width, the call makes four
    register writes; each register address and each value passed lies in
    [0, 255], and the OFF high byte, the count shifted right by 8, is at
    most 2. *)
Theorem C10_bytes_written_fit_8_bits (ch : Z) (p : Q) (self : PCA9685) :
  0 <= ch <= 15 -> is_open (bus self) = true -> (frequency self == 60)%Q ->
  exists (self' : PCA9685) (t : Z),
    DonkeyMotorTest.set_pulse ch p self = (Ok tt, self')
    /\ wire (bus self')
       = wire (bus self)
         ++ [ WriteByte (address self) (0x06 + 4 * ch) (Z.land 0 0xFF);
              WriteByte (address self) (0x06 + 4 * ch + 1) (Z.shiftr 0 8);
              WriteByte (address self) (0x06 + 4 * ch + 2) (Z.land t 0xFF);
              WriteByte (address self) (0x06 + 4 * ch + 3) (Z.shiftr t 8) ]
    /\ Forall (fun w => 0 <= fst w <= 255 /\ 0 <= snd w <= 255)
         (writes (channel_writes (address self) ch 0 t))
    /\ Z.land 0 0xFF = 0 /\ Z.shiftr 0 8 = 0
    /\ 0 <= Z.land t 0xFF <= 255
    /\ 0 <= Z.shiftr t 8 <= 2.
Proof.
  intros Hc Hopen Ef.
  destruct (ticks_of_clamped_60 (frequency self) p Ef) as (t & Ht & Hr).
  destruct (count_bytes t Hr) as [Hlo Hhi].
  exists (wrote_channel self ch 0 t), t.
  rewrite set_pulse_run, Ht, set_pwm_open by exact Hopen.
  split; [reflexivity|].
  split; [apply wrote_channel_wire|].
  split.
  - unfold channel_writes, writes. simpl.
    change (Z.land 0 255) with 0. change (Z.shiftr 0 8) with 0.
    repeat (constructor; [cbn [fst snd]; lia|]). constructor.
  - repeat split; try reflexivity; lia.
Qed.

Lemma C10_witness :
  exists (self' : PCA9685) (t : Z),
    DonkeyMotorTest.set_pulse 15 (-4) pca_60 = (Ok tt, self')
    /\ wire (bus self')
       = wire (bus pca_60)
         ++ [ WriteByte (address pca_60) (0x06 + 4 * 15) (Z.land 0 0xFF);
              WriteByte (address pca_60) (0x06 + 4 * 15 + 1) (Z.shiftr 0 8);
              WriteByte (address pca_60) (0x06 + 4 * 15 + 2) (Z.land t 0xFF);
              WriteByte (address pca_60) (0x06 + 4 * 15 + 3) (Z.shiftr t 8) ]
    /\ Forall (fun w => 0 <= fst w <= 255 /\ 0 <= snd w <= 255)
         (writes (channel_writes (address pca_60) 15 0 t))
    /\ Z.land 0 0xFF = 0 /\ Z.shiftr 0 8 = 0
    /\ 0 <= Z.land t 0xFF <= 255
    /\ 0 <= Z.shiftr t 8 <= 2.
Proof.
  apply (C10_bytes_written_fit_8_bits 15 (-4) pca_60).
  - lia.
  - reflexivity.
  - reflexivity.
Defined.

(** ** C4: the prescale value *)

Lemma bus_read_open (r : Z) (self : PCA9685) :
  is_open (bus self) = true ->
  bus_read r self = (Ok (register_of self r), did_read self r).
Proof.
  intros H. unfold bus_read, bind, gets, zoom, read_byte_data. simpl.
  now rewrite H.
Qed.

Lemma init_pca9685_open (self : PCA9685) :
  is_open (bus self) = true -> ~ (frequency self == 0)%Q ->
  init_pca9685 self
  = (Ok tt, initialised self (py_int (25000000 / (4096 * frequency self) - 1))).
Proof.
  intros Hopen Hf. unfold init_pca9685, bind at 1.
  rewrite (bus_write_open _ _ self Hopen).
  unfold bind at 1, gets at 1. unfold bind at 1, lift.
  rewrite wrote_frequency, (prescale_value_eq _ Hf).
  unfold bind at 1. rewrite bus_read_open by reflexivity.
  rewrite register_of_wrote.
  change (byte 0) with 0. cbn [decide_rel decide Z.eq_dec].
  change (Z.lor (Z.land 0 127) 16) with 16. change (Z.lor 0 32) with 32.
  unfold bind. now rewrite !bus_write_open by reflexivity.
Qed.


Lemma prescale_quotient_antitone (f1 f2 : Q) :
  (0 < f1)%Q -> (f1 <= f2)%Q ->
  (25000000 / (4096 * f2) - 1 <= 25000000 / (4096 * f1) - 1)%Q.
Proof.
  intros Hpos Hle.
  assert (H1 : (0 < 4096 * f1)%Q) by lra.
  assert (H2 : (0 < 4096 * f2)%Q) by lra.
  assert (Hq : (25000000 / (4096 * f2) <= 25000000 / (4096 * f1))%Q).
  { apply Qle_shift_div_r; [exact H2|].
    assert (Hn : (0 <= 25000000 / (4096 * f1))%Q).
    { apply Qle_shift_div_l; [exact H1|]. rewrite Qmult_0_l. discriminate. }
    assert (E : (25000000 == 25000000 / (4096 * f1) * (4096 * f1))%Q)
      by (field; lra).
    rewrite E at 1.
    rewrite (Qmult_comm _ (4096 * f1)), (Qmult_comm _ (4096 * f2)).
    apply Qmult_le_compat_r; [lra | exact Hn]. }
  lra.
Qed.



(** ** C6: [stop_all_channels] *)

Lemma stop_channel_open (ch : Z) (self : PCA9685) :
  is_open (bus self) = true ->
  stop_channel ch self = (Ok tt, wrote_channel self ch 0 0).
Proof.
  intros H. unfold stop_channel, bind.
  rewrite (bus_write_open _ _ self H).
  now rewrite !bus_write_open by reflexivity.
Qed.

Lemma stopped_open (chs : list Z) (self : PCA9685) :
  is_open (bus self) = true -> is_open (bus (stopped self chs)) = true.
Proof.
  revert self. induction chs as [|c chs IH]; intros self H; [exact H|].
  apply IH. apply wrote_channel_open.
Qed.

Lemma stopped_address (chs : list Z) (self : PCA9685) :
  address (stopped self chs) = address self.
Proof.
  revert self. induction chs as [|c chs IH]; intros self; [reflexivity|].
  unfold stopped in *. simpl. now rewrite IH.
Qed.

Lemma stopped_frequency (chs : list Z) (self : PCA9685) :
  frequency (stopped self chs) = frequency self.
Proof.
  revert self. induction chs as [|c chs IH]; intros self; [reflexivity|].
  unfold stopped in *. simpl. now rewrite IH.
Qed.

Lemma for_each_stop_open (chs : list Z) (self : PCA9685) :
  is_open (bus self) = true ->
  for_each chs stop_channel self = (Ok tt, stopped self chs).
Proof.
  revert self. induction chs as [|c chs IH]; intros self H; [reflexivity|].
  cbn [for_each]. unfold bind. rewrite (stop_channel_open c self H).
  apply IH. apply wrote_channel_open.
Qed.

Lemma wrote_channel_zero_keeps (self : PCA9685) (ch r : Z) :
  register_of self r = 0 -> register_of (wrote_channel self ch 0 0) r = 0.
Proof.
  intros H. unfold wrote_channel.
  change (Z.land 0 255) with 0. change (Z.shiftr 0 8) with 0.
  now repeat apply wrote_zero_keeps.
Qed.

Lemma wrote_channel_zero_sets (self : PCA9685) (ch i : Z) :
  0 <= i <= 3 -> register_of (wrote_channel self ch 0 0) (0x06 + 4 * ch + i) = 0.
Proof.
  intros Hi. unfold wrote_channel.
  change (Z.land 0 255) with 0. change (Z.shiftr 0 8) with 0.
  assert (C : i = 0 \/ i = 1 \/ i = 2 \/ i = 3) by lia.
  destruct C as [-> | [-> | [-> | ->]]].
  - do 3 apply wrote_zero_keeps. apply wrote_zero_sets. f_equal. lia.
  - do 2 apply wrote_zero_keeps. now apply wrote_zero_sets.
  - apply wrote_zero_keeps. now apply wrote_zero_sets.
  - now apply wrote_zero_sets.
Qed.

Lemma stopped_keeps (chs : list Z) (self : PCA9685) (r : Z) :
  register_of self r = 0 -> register_of (stopped self chs) r = 0.
Proof.
  revert self. induction chs as [|c chs IH]; intros self H; [exact H|].
  apply IH. now apply wrote_channel_zero_keeps.
Qed.

Lemma stopped_sets (chs : list Z) (self : PCA9685) (ch i : Z) :
  In ch chs -> 0 <= i <= 3 ->
  register_of (stopped self chs) (0x06 + 4 * ch + i) = 0.
Proof.
  revert self. induction chs as [|c chs IH]; intros self Hin Hi; [destruct Hin|].
  destruct Hin as [-> | Hin].
  - apply (stopped_keeps chs). now apply wrote_channel_zero_sets.
  - now apply IH.
Qed.

Lemma in_range (n : nat) (ch : Z) : 0 <= ch < Z.of_nat n -> In ch (range n).
Proof.
  intros H. unfold range. apply in_map_iff. exists (Z.to_nat ch). split.
  - lia.
  - apply in_seq. lia.
Qed.

Lemma stop_all_channels_open (self : PCA9685) :
  is_open (bus self) = true ->
  DonkeyMotorTest.stop_all_channels self = (Ok tt, stopped self (range 16)).
Proof.
  intros H. unfold DonkeyMotorTest.stop_all_channels. now apply for_each_stop_open.
Qed.

Lemma stopped_channels_zero (self : PCA9685) (ch : Z) :
  0 <= ch <= 15 ->
  on_ticks (stopped self (range 16)) ch = 0
  /\ off_ticks (stopped self (range 16)) ch = 0.
Proof.
  intros Hc. assert (Hin : In ch (range 16)) by (apply in_range; lia).
  unfold on_ticks, off_ticks.
  pose proof (stopped_sets (range 16) self ch 0 Hin) as H0.
  pose proof (stopped_sets (range 16) self ch 1 Hin) as H1.
  pose proof (stopped_sets (range 16) self ch 2 Hin) as H2.
  pose proof (stopped_sets (range 16) self ch 3 Hin) as H3.
  rewrite Z.add_0_r in H0.
  rewrite H0, H1, H2, H3 by lia. now split.
Qed.

(** C6.  On an open bus [stop_all_channels] returns, and whatever the
    registers held before, each of the four registers of each of the 16
    channels then holds 0: the ON and the OFF counts of every channel are 0.
    The method is the same in donkey_motor_test.py and in demo_script.py. *)
Theorem C6_stop_all_channels_zeroes_every_channel (self : PCA9685) :
  is_open (bus self) = true ->
  exists self' : PCA9685,
    DonkeyMotorTest.stop_all_channels self = (Ok tt, self')
    /\ DemoScript.stop_all_channels self = (Ok tt, self')
    /\ forall ch : Z, 0 <= ch <= 15 ->
         register_of self' (0x06 + 4 * ch) = 0
         /\ register_of self' (0x06 + 4 * ch + 1) = 0
         /\ register_of self' (0x06 + 4 * ch + 2) = 0
         /\ register_of self' (0x06 + 4 * ch + 3) = 0
         /\ on_ticks self' ch = 0
         /\ off_ticks self' ch = 0.
Proof.
  intros Hopen. exists (stopped self (range 16)).
  split; [now apply stop_all_channels_open|].
  split; [now apply stop_all_channels_open|].
  intros ch Hc.
  assert (Hin : In ch (range 16)) by (apply in_range; lia).
  pose proof (stopped_sets (range 16) self ch 0 Hin) as H0.
  rewrite Z.add_0_r in H0.
  repeat split; try (apply stopped_sets; [exact Hin | lia]);
    try (apply H0; lia); now apply stopped_channels_zero.
Qed.

(** A chip whose channel 3 holds a pulse, stopped. *)
Lemma C6_witness :
  exists self' : PCA9685,
    DonkeyMotorTest.stop_all_channels (wrote_channel pca_60 3 0 368) = (Ok tt, self')
    /\ DemoScript.stop_all_channels (wrote_channel pca_60 3 0 368) = (Ok tt, self')
    /\ forall ch : Z, 0 <= ch <= 15 ->
         register_of self' (0x06 + 4 * ch) = 0
         /\ register_of self' (0x06 + 4 * ch + 1) = 0
         /\ register_of self' (0x06 + 4 * ch + 2) = 0
         /\ register_of self' (0x06 + 4 * ch + 3) = 0
         /\ on_ticks self' ch = 0
         /\ off_ticks self' ch = 0.
Proof.
  apply (C6_stop_all_channels_zeroes_every_channel (wrote_channel pca_60 3 0 368)).
  reflexivity.
Defined.

(** ** The controller of donkey_motor_test.py *)

Lemma set_pulse_comp (ch : Z) (p q : Q) (self : PCA9685) :
  (p == q)%Q -> DonkeyMotorTest.set_pulse ch p self = DonkeyMotorTest.set_pulse ch q self.
Proof.
  intros E. rewrite !set_pulse_run.
  now rewrite (pulse_value_comp (frequency self) (frequency self)
                 (DonkeyMotorTest.clamp_pulse p) (DonkeyMotorTest.clamp_pulse q)
                 (Qeq_refl _) (clamp_pulse_comp p q E)).
Qed.

Lemma set_pwm_field_pwm (car : DonkeyMotorTest.DonkeyCarController) :
  DonkeyMotorTest.set_pwm_field (DonkeyMotorTest.pwm car) car = car.
Proof. now destruct car. Qed.

Lemma set_steering_run (x : Q) (car : DonkeyMotorTest.DonkeyCarController) :
  DonkeyMotorTest.set_steering x car
  = DonkeyMotorTest.on_pwm
      (DonkeyMotorTest.set_pulse (DonkeyMotorTest.steering_channel car)
         (DonkeyMotorTest.steering_center car
          + DonkeyMotorTest.clamp_command x * DonkeyMotorTest.steering_range car))
      car.
Proof. reflexivity. Qed.

Lemma set_throttle_run (x : Q) (car : DonkeyMotorTest.DonkeyCarController) :
  DonkeyMotorTest.set_throttle x car
  = DonkeyMotorTest.on_pwm
      (DonkeyMotorTest.set_pulse (DonkeyMotorTest.throttle_channel car)
         (DonkeyMotorTest.throttle_neutral car
          + DonkeyMotorTest.clamp_command x * DonkeyMotorTest.throttle_range car))
      car.
Proof. reflexivity. Qed.

Lemma on_pwm_set_pulse_open (ch : Z) (p : Q) (car : DonkeyMotorTest.DonkeyCarController) :
  is_open (bus (DonkeyMotorTest.pwm car)) = true ->
  ~ (frequency (DonkeyMotorTest.pwm car) == 0)%Q ->
  DonkeyMotorTest.on_pwm (DonkeyMotorTest.set_pulse ch p) car
  = (Ok tt,
     DonkeyMotorTest.set_pwm_field
       (wrote_channel (DonkeyMotorTest.pwm car) ch 0
          (py_int (DonkeyMotorTest.clamp_pulse p
                   * frequency (DonkeyMotorTest.pwm car) * 4096 / 1000)))
       car).
Proof.
  intros Hopen Hf. unfold DonkeyMotorTest.on_pwm, zoom.
  now rewrite set_pulse_open.
Qed.

Lemma on_pwm_set_pulse_closed (ch : Z) (p : Q) (car : DonkeyMotorTest.DonkeyCarController) :
  is_open (bus (DonkeyMotorTest.pwm car)) = false ->
  ~ (frequency (DonkeyMotorTest.pwm car) == 0)%Q ->
  DonkeyMotorTest.on_pwm (DonkeyMotorTest.set_pulse ch p) car = (Raise TransferError, car).
Proof.
  intros Hclosed Hf. unfold DonkeyMotorTest.on_pwm, zoom.
  now rewrite set_pulse_closed, set_pwm_field_pwm.
Qed.

(** The controller [DonkeyCarController()] returns. *)
Lemma DonkeyCarController_new_ok (regs : gmap (Z * Z) Z) :
  exists car : DonkeyMotorTest.DonkeyCarController,
    DonkeyMotorTest.DonkeyCarController_new regs = Ok car
    /\ DonkeyMotorTest.steering_channel car = 0
    /\ DonkeyMotorTest.throttle_channel car = 1
    /\ DonkeyMotorTest.steering_center car = 1.8%Q
    /\ DonkeyMotorTest.steering_range car = 0.5%Q
    /\ DonkeyMotorTest.throttle_neutral car = 1.5%Q
    /\ DonkeyMotorTest.throttle_range car = 0.4%Q
    /\ is_open (bus (DonkeyMotorTest.pwm car)) = true
    /\ address (DonkeyMotorTest.pwm car) = 0x40
    /\ frequency (DonkeyMotorTest.pwm car) = 60%Q.
Proof.
  unfold DonkeyMotorTest.DonkeyCarController_new, PCA9685_new.
  rewrite init_pca9685_open by (reflexivity || discriminate).
  unfold bind.
  rewrite set_steering_run, on_pwm_set_pulse_open by (reflexivity || discriminate).
  rewrite set_throttle_run, on_pwm_set_pulse_open by (reflexivity || discriminate).
  eexists. split; [reflexivity|]. repeat split.
Qed.

(** ** C5: normalized commands *)

Lemma set_steering_commands (car : DonkeyMotorTest.DonkeyCarController) (x p : Q) :
  (p == DonkeyMotorTest.steering_center car
        + DonkeyMotorTest.clamp_command x * DonkeyMotorTest.steering_range car)%Q ->
  DonkeyMotorTest.set_steering x car
  = DonkeyMotorTest.on_pwm
      (DonkeyMotorTest.set_pulse (DonkeyMotorTest.steering_channel car) p) car.
Proof.
  intros E. rewrite set_steering_run. unfold DonkeyMotorTest.on_pwm, zoom.
  now rewrite (set_pulse_comp _ _ p) by now symmetry.
Qed.

Lemma set_throttle_commands (car : DonkeyMotorTest.DonkeyCarController) (x p : Q) :
  (p == DonkeyMotorTest.throttle_neutral car
        + DonkeyMotorTest.clamp_command x * DonkeyMotorTest.throttle_range car)%Q ->
  DonkeyMotorTest.set_throttle x car
  = DonkeyMotorTest.on_pwm
      (DonkeyMotorTest.set_pulse (DonkeyMotorTest.throttle_channel car) p) car.
Proof.
  intros E. rewrite set_throttle_run. unfold DonkeyMotorTest.on_pwm, zoom.
  now rewrite (set_pulse_comp _ _ p) by now symmetry.
Qed.

(** What [set_pulse] leaves as the OFF count of the channel on the
    controller of the scripts. *)
Lemma off_ticks_after_set_pulse (car : DonkeyMotorTest.DonkeyCarController)
    (ch : Z) (p : Q) (t : Z) :
  is_open (bus (DonkeyMotorTest.pwm car)) = true ->
  frequency (DonkeyMotorTest.pwm car) = 60%Q ->
  0 <= ch <= 15 ->
  py_int (DonkeyMotorTest.clamp_pulse p * 60 * 4096 / 1000) = t ->
  0 <= t < 65536 ->
  off_ticks
    (DonkeyMotorTest.pwm
       (snd (DonkeyMotorTest.on_pwm (DonkeyMotorTest.set_pulse ch p) car))) ch = t.
Proof.
  intros Hopen Hf Hc Ht Hr.
  rewrite on_pwm_set_pulse_open; [|exact Hopen|rewrite Hf; discriminate].
  cbn [snd DonkeyMotorTest.pwm DonkeyMotorTest.set_pwm_field].
  rewrite Hf, Ht. apply ticks_wrote_channel; lia.
Qed.

(** C5.  On the controller [DonkeyCarController()] returns (steering on
    channel 0 with center 1.8 ms and half range 0.5 ms, throttle on channel 1
    with center 1.5 ms and half range 0.4 ms), [set_steering(-1.0)] is
    [set_pulse(0, 1.3)], [set_steering(1.0)] is [set_pulse(0, 2.3)],
    [set_steering(0.0)] is [set_pulse(0, 1.8)] and [set_throttle(0.5)] is
    [set_pulse(1, 1.7)]; the channel's OFF count is then 319, 565, 442 and 417.
    On every controller the pulse commanded is
    [center + clamp(command) * half_range], the command clamped to [-1, 1]. *)
Theorem C5_commands_map_through_calibration (regs : gmap (Z * Z) Z) :
  exists car : DonkeyMotorTest.DonkeyCarController,
    DonkeyMotorTest.DonkeyCarController_new regs = Ok car
    /\ DonkeyMotorTest.set_steering (-1) car
       = DonkeyMotorTest.on_pwm (DonkeyMotorTest.set_pulse 0 1.3) car
    /\ DonkeyMotorTest.set_steering 1 car
       = DonkeyMotorTest.on_pwm (DonkeyMotorTest.set_pulse 0 2.3) car
    /\ DonkeyMotorTest.set_steering 0 car
       = DonkeyMotorTest.on_pwm (DonkeyMotorTest.set_pulse 0 1.8) car
    /\ DonkeyMotorTest.set_throttle 0.5 car
       = DonkeyMotorTest.on_pwm (DonkeyMotorTest.set_pulse 1 1.7) car
    /\ off_ticks (DonkeyMotorTest.pwm (snd (DonkeyMotorTest.set_steering (-1) car))) 0 = 319
    /\ off_ticks (DonkeyMotorTest.pwm (snd (DonkeyMotorTest.set_steering 1 car))) 0 = 565
    /\ off_ticks (DonkeyMotorTest.pwm (snd (DonkeyMotorTest.set_steering 0 car))) 0 = 442
    /\ off_ticks (DonkeyMotorTest.pwm (snd (DonkeyMotorTest.set_throttle 0.5 car))) 1 = 417
    /\ (forall (c : DonkeyMotorTest.DonkeyCarController) (x p : Q),
          (p == DonkeyMotorTest.steering_center c
                + DonkeyMotorTest.clamp_command x * DonkeyMotorTest.steering_range c)%Q ->
          DonkeyMotorTest.set_steering x c
          = DonkeyMotorTest.on_pwm
              (DonkeyMotorTest.set_pulse (DonkeyMotorTest.steering_channel c) p) c)
    /\ (forall (c : DonkeyMotorTest.DonkeyCarController) (x p : Q),
          (p == DonkeyMotorTest.throttle_neutral c
                + DonkeyMotorTest.clamp_command x * DonkeyMotorTest.throttle_range c)%Q ->
          DonkeyMotorTest.set_throttle x c
          = DonkeyMotorTest.on_pwm
              (DonkeyMotorTest.set_pulse (DonkeyMotorTest.throttle_channel c) p) c)
    /\ (forall x : Q,
          ((-1 <= DonkeyMotorTest.clamp_command x)%Q
           /\ (DonkeyMotorTest.clamp_command x <= 1)%Q)
          /\ ((x < -1)%Q -> DonkeyMotorTest.clamp_command x = (-1)%Q)
          /\ ((1 < x)%Q -> DonkeyMotorTest.clamp_command x = 1%Q)
          /\ ((-1 <= x)%Q -> (x <= 1)%Q -> DonkeyMotorTest.clamp_command x = x)).
Proof.
  destruct (DonkeyCarController_new_ok regs)
    as (car & Enew & Hsc & Htc & Hc & Hr & Hn & Htr & Hopen & Haddr & Hf).
  exists car. split; [exact Enew|].
  assert (S1 : DonkeyMotorTest.set_steering (-1) car
               = DonkeyMotorTest.on_pwm (DonkeyMotorTest.set_pulse 0 1.3) car).
  { rewrite (set_steering_commands car _ 1.3), Hsc; [reflexivity|].
    rewrite Hc, Hr. now vm_compute. }
  assert (S2 : DonkeyMotorTest.set_steering 1 car
               = DonkeyMotorTest.on_pwm (DonkeyMotorTest.set_pulse 0 2.3) car).
  { rewrite (set_steering_commands car _ 2.3), Hsc; [reflexivity|].
    rewrite Hc, Hr. now vm_compute. }
  assert (S3 : DonkeyMotorTest.set_steering 0 car
               = DonkeyMotorTest.on_pwm (DonkeyMotorTest.set_pulse 0 1.8) car).
  { rewrite (set_steering_commands car _ 1.8), Hsc; [reflexivity|].
    rewrite Hc, Hr. now vm_compute. }
  assert (T1 : DonkeyMotorTest.set_throttle 0.5 car
               = DonkeyMotorTest.on_pwm (DonkeyMotorTest.set_pulse 1 1.7) car).
  { rewrite (set_throttle_commands car _ 1.7), Htc; [reflexivity|].
    rewrite Hn, Htr. now vm_compute. }
  split; [exact S1|]. split; [exact S2|]. split; [exact S3|]. split; [exact T1|].
  rewrite S1, S2, S3, T1.
  split; [apply off_ticks_after_set_pulse; [assumption|assumption|lia|now vm_compute|lia]|].
  split; [apply off_ticks_after_set_pulse; [assumption|assumption|lia|now vm_compute|lia]|].
  split; [apply off_ticks_after_set_pulse; [assumption|assumption|lia|now vm_compute|lia]|].
  split; [apply off_ticks_after_set_pulse; [assumption|assumption|lia|now vm_compute|lia]|].
  split; [exact set_steering_commands|].
  split; [exact set_throttle_commands|].
  intros x. split; [apply clamp_command_range|].
  destruct (clamp_command_cases x) as [[Lo E]|[[Hi E]|(Lo & Hi & E)]];
    repeat split; intros; try exact E; exfalso; lra.
Qed.

Lemma C5_witness :
  exists car : DonkeyMotorTest.DonkeyCarController,
    DonkeyMotorTest.DonkeyCarController_new ∅ = Ok car
    /\ DonkeyMotorTest.set_steering (-1) car
       = DonkeyMotorTest.on_pwm (DonkeyMotorTest.set_pulse 0 1.3) car
    /\ DonkeyMotorTest.set_steering 1 car
       = DonkeyMotorTest.on_pwm (DonkeyMotorTest.set_pulse 0 2.3) car
    /\ DonkeyMotorTest.set_steering 0 car
       = DonkeyMotorTest.on_pwm (DonkeyMotorTest.set_pulse 0 1.8) car
    /\ DonkeyMotorTest.set_throttle 0.5 car
       = DonkeyMotorTest.on_pwm (DonkeyMotorTest.set_pulse 1 1.7) car
    /\ off_ticks (DonkeyMotorTest.pwm (snd (DonkeyMotorTest.set_steering (-1) car))) 0 = 319
    /\ off_ticks (DonkeyMotorTest.pwm (snd (DonkeyMotorTest.set_steering 1 car))) 0 = 565
    /\ off_ticks (DonkeyMotorTest.pwm (snd (DonkeyMotorTest.set_steering 0 car))) 0 = 442
    /\ off_ticks (DonkeyMotorTest.pwm (snd (DonkeyMotorTest.set_throttle 0.5 car))) 1 = 417
    /\ (forall (c : DonkeyMotorTest.DonkeyCarController) (x p : Q),
          (p == DonkeyMotorTest.steering_center c
                + DonkeyMotorTest.clamp_command x * DonkeyMotorTest.steering_range c)%Q ->
          DonkeyMotorTest.set_steering x c
          = DonkeyMotorTest.on_pwm
              (DonkeyMotorTest.set_pulse (DonkeyMotorTest.steering_channel c) p) c)
    /\ (forall (c : DonkeyMotorTest.DonkeyCarController) (x p : Q),
          (p == DonkeyMotorTest.throttle_neutral c
                + DonkeyMotorTest.clamp_command x * DonkeyMotorTest.throttle_range c)%Q ->
          DonkeyMotorTest.set_throttle x c
          = DonkeyMotorTest.on_pwm
              (DonkeyMotorTest.set_pulse (DonkeyMotorTest.throttle_channel c) p) c)
    /\ (forall x : Q,
          ((-1 <= DonkeyMotorTest.clamp_command x)%Q
           /\ (DonkeyMotorTest.clamp_command x <= 1)%Q)
          /\ ((x < -1)%Q -> DonkeyMotorTest.clamp_command x = (-1)%Q)
          /\ ((1 < x)%Q -> DonkeyMotorTest.clamp_command x = 1%Q)
          /\ ((-1 <= x)%Q -> (x <= 1)%Q -> DonkeyMotorTest.clamp_command x = x)).
Proof.
  exact (C5_commands_map_through_calibration ∅).
Defined.

(** ** C8: [cleanup] called twice *)

Lemma close_run (self : PCA9685) : DonkeyMotorTest.close self = (Ok tt, closed self).
Proof. reflexivity. Qed.

Lemma stop_open (car : DonkeyMotorTest.DonkeyCarController) :
  is_open (bus (DonkeyMotorTest.pwm car)) = true ->
  ~ (frequency (DonkeyMotorTest.pwm car) == 0)%Q ->
  exists t_throttle t_steering : Z,
    DonkeyMotorTest.stop car
    = (Ok tt,
       DonkeyMotorTest.set_pwm_field
         (wrote_channel
            (wrote_channel (DonkeyMotorTest.pwm car)
               (DonkeyMotorTest.throttle_channel car) 0 t_throttle)
            (DonkeyMotorTest.steering_channel car) 0 t_steering)
         car).
Proof.
  intros Hopen Hf. unfold DonkeyMotorTest.stop, bind.
  rewrite set_throttle_run, on_pwm_set_pulse_open by assumption.
  rewrite set_steering_run, on_pwm_set_pulse_open by (reflexivity || exact Hf).
  do 2 eexists. reflexivity.
Qed.

Lemma stop_closed (car : DonkeyMotorTest.DonkeyCarController) :
  is_open (bus (DonkeyMotorTest.pwm car)) = false ->
  ~ (frequency (DonkeyMotorTest.pwm car) == 0)%Q ->
  DonkeyMotorTest.stop car = (Raise TransferError, car).
Proof.
  intros Hclosed Hf. unfold DonkeyMotorTest.stop, bind.
  now rewrite set_throttle_run, on_pwm_set_pulse_closed.
Qed.

Lemma cleanup_closed (car : DonkeyMotorTest.DonkeyCarController) :
  is_open (bus (DonkeyMotorTest.pwm car)) = false ->
  ~ (frequency (DonkeyMotorTest.pwm car) == 0)%Q ->
  DonkeyMotorTest.cleanup car = (Raise TransferError, car).
Proof.
  intros Hclosed Hf. unfold DonkeyMotorTest.cleanup, bind.
  now rewrite stop_closed.
Qed.

Lemma cleanup_open (car : DonkeyMotorTest.DonkeyCarController) :
  is_open (bus (DonkeyMotorTest.pwm car)) = true ->
  ~ (frequency (DonkeyMotorTest.pwm car) == 0)%Q ->
  exists p : PCA9685,
    DonkeyMotorTest.cleanup car
    = (Ok tt, DonkeyMotorTest.set_pwm_field (closed (stopped p (range 16))) car)
    /\ frequency p = frequency (DonkeyMotorTest.pwm car).
Proof.
  intros Hopen Hf. destruct (stop_open car Hopen Hf) as (t1 & t2 & Hstop).
  eexists. split; [|shelve].
  unfold DonkeyMotorTest.cleanup, bind. rewrite Hstop.
  unfold DonkeyMotorTest.on_pwm, zoom.
  cbn [DonkeyMotorTest.pwm DonkeyMotorTest.set_pwm_field].
  rewrite stop_all_channels_open by reflexivity.
  cbn [DonkeyMotorTest.pwm DonkeyMotorTest.set_pwm_field].
  rewrite close_run. reflexivity.
  Unshelve. reflexivity.
Qed.

(** The same steps on the object of demo_script.py. *)
Lemma demo_set_pwm_field_pwm (demo : DemoScript.PiRacerDemo) :
  DemoScript.set_pwm_field (DemoScript.pwm demo) demo = demo.
Proof. now destruct demo. Qed.

Lemma demo_on_pwm_set_pulse_open (ch : Z) (p : Q) (demo : DemoScript.PiRacerDemo) :
  is_open (bus (DemoScript.pwm demo)) = true ->
  ~ (frequency (DemoScript.pwm demo) == 0)%Q ->
  DemoScript.on_pwm (DemoScript.set_pulse ch p) demo
  = (Ok tt,
     DemoScript.set_pwm_field
       (wrote_channel (DemoScript.pwm demo) ch 0
          (py_int (p * frequency (DemoScript.pwm demo) * 4096 / 1000)))
       demo).
Proof.
  intros Hopen Hf. unfold DemoScript.on_pwm, zoom.
  now rewrite demo_set_pulse_open.
Qed.

Lemma demo_on_pwm_set_pulse_closed (ch : Z) (p : Q) (demo : DemoScript.PiRacerDemo) :
  is_open (bus (DemoScript.pwm demo)) = false ->
  ~ (frequency (DemoScript.pwm demo) == 0)%Q ->
  DemoScript.on_pwm (DemoScript.set_pulse ch p) demo = (Raise TransferError, demo).
Proof.
  intros Hclosed Hf. unfold DemoScript.on_pwm, zoom.
  now rewrite demo_set_pulse_closed, demo_set_pwm_field_pwm.
Qed.

Lemma demo_cleanup_closed (demo : DemoScript.PiRacerDemo) :
  is_open (bus (DemoScript.pwm demo)) = false ->
  ~ (frequency (DemoScript.pwm demo) == 0)%Q ->
  DemoScript.cleanup demo = (Raise TransferError, demo).
Proof.
  intros Hclosed Hf.
  unfold DemoScript.cleanup, DemoScript.stop, DemoScript.set_throttle, bind, gets.
  now rewrite demo_on_pwm_set_pulse_closed.
Qed.

Lemma demo_cleanup_open (demo : DemoScript.PiRacerDemo) :
  is_open (bus (DemoScript.pwm demo)) = true ->
  ~ (frequency (DemoScript.pwm demo) == 0)%Q ->
  exists p : PCA9685,
    DemoScript.cleanup demo
    = (Ok tt, DemoScript.set_pwm_field (closed (stopped p (range 16))) demo)
    /\ frequency p = frequency (DemoScript.pwm demo).
Proof.
  intros Hopen Hf. eexists. split; [|shelve].
  unfold DemoScript.cleanup, DemoScript.stop, DemoScript.set_throttle,
    DemoScript.set_steering, bind, gets.
  rewrite demo_on_pwm_set_pulse_open by assumption.
  cbn [DemoScript.steering_channel DemoScript.steering_center DemoScript.set_pwm_field].
  rewrite demo_on_pwm_set_pulse_open by (reflexivity || exact Hf).
  unfold DemoScript.on_pwm, zoom.
  cbn [DemoScript.pwm DemoScript.set_pwm_field].
  unfold DemoScript.stop_all_channels.
  rewrite for_each_stop_open by reflexivity.
  cbn [DemoScript.pwm DemoScript.set_pwm_field].
  reflexivity.
  Unshelve. reflexivity.
Qed.

Lemma closed_is_closed (self : PCA9685) : is_open (bus (closed self)) = false.
Proof. reflexivity. Qed.

Lemma closed_frequency (self : PCA9685) : frequency (closed self) = frequency self.
Proof. reflexivity. Qed.

Lemma closed_ticks (self : PCA9685) (ch : Z) :
  on_ticks (closed self) ch = on_ticks self ch
  /\ off_ticks (closed self) ch = off_ticks self ch.
Proof. split; reflexivity. Qed.

(** The state [cleanup] leaves: the bus released, every channel at 0. *)
Lemma closed_stopped_state (p : PCA9685) :
  is_open (bus (closed (stopped p (range 16)))) = false
  /\ frequency (closed (stopped p (range 16))) = frequency p
  /\ forall ch : Z, 0 <= ch <= 15 ->
       on_ticks (closed (stopped p (range 16))) ch = 0
       /\ off_ticks (closed (stopped p (range 16))) ch = 0.
Proof.
  split; [apply closed_is_closed|]. split.
  - rewrite closed_frequency. apply stopped_frequency.
  - intros ch Hc.
    destruct (closed_ticks (stopped p (range 16)) ch) as [-> ->].
    exact (stopped_channels_zero p ch Hc).
Qed.

Lemma pwm_set_pwm_field (p : PCA9685) (car : DonkeyMotorTest.DonkeyCarController) :
  DonkeyMotorTest.pwm (DonkeyMotorTest.set_pwm_field p car) = p.
Proof. reflexivity. Qed.

Lemma demo_pwm_set_pwm_field (p : PCA9685) (demo : DemoScript.PiRacerDemo) :
  DemoScript.pwm (DemoScript.set_pwm_field p demo) = p.
Proof. reflexivity. Qed.

Lemma signal_handler_run (demo : DemoScript.PiRacerDemo) (e : exn) :
  DemoScript.cleanup demo = (Raise e, demo) ->
  DemoScript.signal_handler (Some demo) = (Raise e, Some demo).
Proof.
  intros H. unfold DemoScript.signal_handler. now rewrite H.
Qed.

(** C8, as amended.  [cleanup] is not idempotent.  A first call on a usable
    controller completes and leaves every channel at 0 and the bus released.
    A second call then raises at its first register write, a transfer on the
    released bus, and changes nothing: the state stays as the first call left
    it.  The same holds for [cleanup] of demo_script.py, and [signal_handler]
    arriving after a completed [cleanup] raises that error too. *)
Theorem C8_second_cleanup_raises
    (car : DonkeyMotorTest.DonkeyCarController) (demo : DemoScript.PiRacerDemo) :
  is_open (bus (DonkeyMotorTest.pwm car)) = true ->
  ~ (frequency (DonkeyMotorTest.pwm car) == 0)%Q ->
  is_open (bus (DemoScript.pwm demo)) = true ->
  ~ (frequency (DemoScript.pwm demo) == 0)%Q ->
  (exists car1 : DonkeyMotorTest.DonkeyCarController,
      DonkeyMotorTest.cleanup car = (Ok tt, car1)
      /\ is_open (bus (DonkeyMotorTest.pwm car1)) = false
      /\ (forall ch : Z, 0 <= ch <= 15 ->
            on_ticks (DonkeyMotorTest.pwm car1) ch = 0
            /\ off_ticks (DonkeyMotorTest.pwm car1) ch = 0)
      /\ DonkeyMotorTest.cleanup car1 = (Raise TransferError, car1))
  /\ (exists demo1 : DemoScript.PiRacerDemo,
      DemoScript.cleanup demo = (Ok tt, demo1)
      /\ is_open (bus (DemoScript.pwm demo1)) = false
      /\ (forall ch : Z, 0 <= ch <= 15 ->
            on_ticks (DemoScript.pwm demo1) ch = 0
            /\ off_ticks (DemoScript.pwm demo1) ch = 0)
      /\ DemoScript.cleanup demo1 = (Raise TransferError, demo1)
      /\ DemoScript.signal_handler (Some demo1) = (Raise TransferError, Some demo1)).
Proof.
  intros Hopen Hf Dopen Df. split.
  - destruct (cleanup_open car Hopen Hf) as (p & E & Fp).
    destruct (closed_stopped_state p) as (Hclosed & Hfreq & Hzero).
    exists (DonkeyMotorTest.set_pwm_field (closed (stopped p (range 16))) car).
    rewrite pwm_set_pwm_field.
    split; [exact E|]. split; [exact Hclosed|]. split; [exact Hzero|].
    apply cleanup_closed; rewrite pwm_set_pwm_field; [exact Hclosed|].
    now rewrite Hfreq, Fp.
  - destruct (demo_cleanup_open demo Dopen Df) as (p & E & Fp).
    destruct (closed_stopped_state p) as (Hclosed & Hfreq & Hzero).
    exists (DemoScript.set_pwm_field (closed (stopped p (range 16))) demo).
    rewrite demo_pwm_set_pwm_field.
    assert (Again : DemoScript.cleanup
                      (DemoScript.set_pwm_field (closed (stopped p (range 16))) demo)
                    = (Raise TransferError,
                       DemoScript.set_pwm_field (closed (stopped p (range 16))) demo)).
    { apply demo_cleanup_closed; rewrite demo_pwm_set_pwm_field; [exact Hclosed|].
      now rewrite Hfreq, Fp. }
    split; [exact E|]. split; [exact Hclosed|]. split; [exact Hzero|].
    split; [exact Again|]. now apply signal_handler_run.
Qed.

Lemma C8_witness :
  (exists car1 : DonkeyMotorTest.DonkeyCarController,
      DonkeyMotorTest.cleanup car_60 = (Ok tt, car1)
      /\ is_open (bus (DonkeyMotorTest.pwm car1)) = false
      /\ (forall ch : Z, 0 <= ch <= 15 ->
            on_ticks (DonkeyMotorTest.pwm car1) ch = 0
            /\ off_ticks (DonkeyMotorTest.pwm car1) ch = 0)
      /\ DonkeyMotorTest.cleanup car1 = (Raise TransferError, car1))
  /\ (exists demo1 : DemoScript.PiRacerDemo,
      DemoScript.cleanup demo_60 = (Ok tt, demo1)
      /\ is_open (bus (DemoScript.pwm demo1)) = false
      /\ (forall ch : Z, 0 <= ch <= 15 ->
            on_ticks (DemoScript.pwm demo1) ch = 0
            /\ off_ticks (DemoScript.pwm demo1) ch = 0)
      /\ DemoScript.cleanup demo1 = (Raise TransferError, demo1)
      /\ DemoScript.signal_handler (Some demo1) = (Raise TransferError, Some demo1)).
Proof.
  apply (C8_second_cleanup_raises car_60 demo_60).
  - reflexivity.
  - discriminate.
  - reflexivity.
  - discriminate.
Defined.

(** C8 as stated fails on the objects the scripts construct: the first
    [cleanup] returns, the second raises. *)
Lemma C8_second_cleanup_does_not_succeed :
  match DonkeyMotorTest.DonkeyCarController_new ∅ with
  | Ok car =>
    fst (DonkeyMotorTest.cleanup car) = Ok tt
    /\ fst (DonkeyMotorTest.cleanup (snd (DonkeyMotorTest.cleanup car)))
       = Raise TransferError
    /\ fst (DonkeyMotorTest.cleanup (snd (DonkeyMotorTest.cleanup car))) <> Ok tt
  | Raise _ => False
  end
  /\ match DemoScript.PiRacerDemo_new ∅ with
     | Ok demo =>
       fst (DemoScript.cleanup demo) = Ok tt
       /\ fst (DemoScript.cleanup (snd (DemoScript.cleanup demo))) = Raise TransferError
       /\ fst (DemoScript.signal_handler (Some (snd (DemoScript.cleanup demo))))
          = Raise TransferError
     | Raise _ => False
     end.
Proof.
  vm_compute. repeat split. discriminate.
Qed.

(** ** The same numbers on binary64 *)

Module Binary64Facts.
Import PrimFloat.
#[local] Set Warnings "-inexact-float".

(** The prescale at 60 Hz, from the float and from the Python int 60. *)
Lemma b64_prescale_at_60 :
Binary64.prescale_value 60%float = Some 100
/\ Binary64.prescale_value (Binary64.of_int 60) = Some 100.
Proof. split; vm_compute; reflexivity. Qed.

(** The counts at 60 Hz of the pulse widths the examples above use. *)
Lemma b64_pulse_values_at_60 :
Binary64.pulse_value 60%float 1.5%float = Some 368
/\ Binary64.pulse_value 60%float 3%float = Some 737
/\ Binary64.pulse_value 60%float (Binary64.clamp_pulse 3%float) = Some 614
/\ Binary64.pulse_value 60%float 20%float = Some 4915
/\ Binary64.pulse_value 60%float (Binary64.clamp_pulse 20%float) = Some 614
/\ Binary64.pulse_value 60%float (Binary64.clamp_pulse (-4)%float) = Some 122
/\ Binary64.pulse_value 60%float 0.5%float = Some 122
/\ Binary64.pulse_value 60%float 2.5%float = Some 614.
Proof. repeat split; vm_compute; reflexivity. Qed.

(** The four commands of the scenario: the pulse computed is the float the
  literal denotes, and its count is the one found above. *)
Lemma b64_scenario_pulses :
Binary64.axis_pulse 1.8 0.5 (-1.0) = 1.3%float
/\ Binary64.axis_pulse 1.8 0.5 1.0 = 2.3%float
/\ Binary64.axis_pulse 1.8 0.5 0.0 = 1.8%float
/\ Binary64.axis_pulse 1.5 0.4 0.5 = 1.7%float
/\ Binary64.pulse_value 60%float (Binary64.clamp_pulse 1.3%float) = Some 319
/\ Binary64.pulse_value 60%float (Binary64.clamp_pulse 2.3%float) = Some 565
/\ Binary64.pulse_value 60%float (Binary64.clamp_pulse 1.8%float) = Some 442
/\ Binary64.pulse_value 60%float (Binary64.clamp_pulse 1.7%float) = Some 417.
Proof. repeat split; vm_compute; reflexivity. Qed.

Lemma b64_prescale_agrees_on_list :
forallb prescale_agrees integer_frequencies = true.
Proof. vm_compute. reflexivity. Qed.

(** At every integer frequency from 1 to 7000 Hz the binary64 prescale is
  the prescale of the exact computation. *)
Lemma b64_prescale_agrees (f : Z) :
1 <= f <= 7000 ->
exists p : Z,
  Binary64.prescale_value (Binary64.of_int f) = Some p
  /\ prescale_value (inject_Z f) = Ok p.
Proof.
intros Hf.
assert (Hin : In f integer_frequencies).
{ apply in_map_iff. exists (Z.to_nat f). split; [lia|]. apply in_seq. lia. }
pose proof (proj1 (forallb_forall _ _) b64_prescale_agrees_on_list f Hin) as H.
unfold prescale_agrees in H.
destruct (Binary64.prescale_value (Binary64.of_int f)) as [a|]; [|discriminate].
destruct (prescale_value (inject_Z f)) as [b|]; [|discriminate].
apply Z.eqb_eq in H. subst b. now exists a.
Qed.

(** So the binary64 prescale does not increase with the integer frequency. *)
Lemma b64_prescale_antitone (f1 f2 : Z) :
1 <= f1 -> f1 <= f2 -> f2 <= 7000 ->
exists p1 p2 : Z,
  Binary64.prescale_value (Binary64.of_int f1) = Some p1
  /\ Binary64.prescale_value (Binary64.of_int f2) = Some p2
  /\ p2 <= p1.
Proof.
intros H1 H12 H2.
destruct (b64_prescale_agrees f1) as (p1 & B1 & Q1); [lia|].
destruct (b64_prescale_agrees f2) as (p2 & B2 & Q2); [lia|].
exists p1, p2. split; [exact B1|]. split; [exact B2|].
assert (P1 : (0 < inject_Z f1)%Q) by (rewrite <- (Zlt_Qlt 0); lia).
assert (L : (inject_Z f1 <= inject_Z f2)%Q) by (rewrite <- Zle_Qle; lia).
rewrite prescale_value_eq in Q1 by lra.
rewrite prescale_value_eq in Q2 by lra.
injection Q1 as <-. injection Q2 as <-.
apply py_int_mono. now apply prescale_quotient_antitone.
Qed.

(** Where binary64 and the exact computation part: the quotient of
  0.8056640625 ms at 60 Hz is exactly 198, the float quotient falls just
  below it, and [int] then gives 197.  Both are truncations; neither is the
  rounded value of a quotient with a fractional part. *)
Lemma b64_count_one_below_exact :
pulse_value 60 0.8056640625 = Ok 198
/\ Binary64.pulse_value 60%float 0.8056640625%float = Some 197.
Proof. split; vm_compute; reflexivity. Qed.

End Binary64Facts.

(** * Further properties of the scripts *)

(** ** [set_pwm]: what the chip holds afterwards *)

Lemma split_count_mod (t : Z) :
  byte (Z.land t 0xFF) + 256 * byte (Z.shiftr t 8) = t mod 65536.
Proof.
  unfold byte. change 0xFF with (Z.ones 8).
  rewrite !Z.land_ones, Z.shiftr_div_pow2 by lia.
  change (2 ^ 8) with 256. rewrite Z.mod_mod by lia.
  change 65536 with (256 * 256). rewrite Z.rem_mul_r by lia. reflexivity.
Qed.

Lemma ticks_wrote_channel_mod (self : PCA9685) (ch on off : Z) :
  0 <= ch <= 15 ->
  on_ticks (wrote_channel self ch on off) ch = on mod 65536
  /\ off_ticks (wrote_channel self ch on off) ch = off mod 65536.
Proof.
  intros Hc. unfold on_ticks, off_ticks, wrote_channel.
  rewrite !register_of_wrote.
  rewrite !(byte_small (6 + 4 * ch)), !(byte_small (6 + 4 * ch + 1)),
    !(byte_small (6 + 4 * ch + 2)), !(byte_small (6 + 4 * ch + 3)) by lia.
  repeat (destruct (decide _) as [?|?]; try lia).
  split; apply split_count_mod.
Qed.

(** A register outside the four of the channel keeps what it held. *)
Lemma register_of_wrote_channel_other (self : PCA9685) (ch on off r : Z) :
  byte r <> byte (0x06 + 4 * ch) ->
  byte r <> byte (0x06 + 4 * ch + 1) ->
  byte r <> byte (0x06 + 4 * ch + 2) ->
  byte r <> byte (0x06 + 4 * ch + 3) ->
  register_of (wrote_channel self ch on off) r = register_of self r.
Proof.
  intros H0 H1 H2 H3. unfold wrote_channel.
  rewrite !register_of_wrote.
  repeat (destruct (decide _) as [?|?]; try contradiction).
  reflexivity.
Qed.

Lemma ticks_wrote_channel_other (self : PCA9685) (ch ch' on off : Z) :
  0 <= ch <= 15 -> 0 <= ch' <= 15 -> ch <> ch' ->
  on_ticks (wrote_channel self ch on off) ch' = on_ticks self ch'
  /\ off_ticks (wrote_channel self ch on off) ch' = off_ticks self ch'.
Proof.
  intros Hc Hc' Hne. unfold on_ticks, off_ticks.
  rewrite !register_of_wrote_channel_other; [now split|..];
    rewrite !byte_small by lia; lia.
Qed.

(** X1.  A round trip through the chip: on an open bus, for a channel in
    [0, 15], [set_pwm] returns and the channel's registers then hold the two
    counts it was given, taken modulo 65536 (two bytes each): counts in
    [0, 4095] are read back as they were written. *)
Theorem X1_set_pwm_round_trip (ch on off : Z) (self : PCA9685) :
  0 <= ch <= 15 -> is_open (bus self) = true ->
  exists self' : PCA9685,
    DonkeyMotorTest.set_pwm ch on off self = (Ok tt, self')
    /\ SteeringCalibration.set_pwm ch on off self = (Ok tt, self')
    /\ on_ticks self' ch = on mod 65536
    /\ off_ticks self' ch = off mod 65536
    /\ (0 <= on <= 4095 -> on_ticks self' ch = on)
    /\ (0 <= off <= 4095 -> off_ticks self' ch = off).
Proof.
  intros Hc Hopen. exists (wrote_channel self ch on off).
  destruct (ticks_wrote_channel_mod self ch on off Hc) as [Hon Hoff].
  split; [now apply set_pwm_open|].
  split; [exact (set_pwm_open ch on off self Hopen)|].
  split; [exact Hon|]. split; [exact Hoff|]. split; intros Hr.
  - rewrite Hon. apply Z.mod_small. lia.
  - rewrite Hoff. apply Z.mod_small. lia.
Qed.

Lemma X1_witness :
  exists self' : PCA9685,
    DonkeyMotorTest.set_pwm 5 0 4915 pca_60 = (Ok tt, self')
    /\ SteeringCalibration.set_pwm 5 0 4915 pca_60 = (Ok tt, self')
    /\ on_ticks self' 5 = 0 mod 65536
    /\ off_ticks self' 5 = 4915 mod 65536
    /\ (0 <= 0 <= 4095 -> on_ticks self' 5 = 0)
    /\ (0 <= 4915 <= 4095 -> off_ticks self' 5 = 4915).
Proof.
  apply (X1_set_pwm_round_trip 5 0 4915 pca_60).
  - lia.
  - reflexivity.
Defined.

(** X2.  [set_pwm] on one channel of [0, 15] leaves the counts of every
    other channel of [0, 15] as they were, and the mode register 0x00 and
    the prescale register 0xFE too. *)
Theorem X2_set_pwm_leaves_other_channels (ch ch' on off : Z) (self : PCA9685) :
  0 <= ch <= 15 -> 0 <= ch' <= 15 -> ch <> ch' -> is_open (bus self) = true ->
  exists self' : PCA9685,
    DonkeyMotorTest.set_pwm ch on off self = (Ok tt, self')
    /\ on_ticks self' ch' = on_ticks self ch'
    /\ off_ticks self' ch' = off_ticks self ch'
    /\ register_of self' 0x00 = register_of self 0x00
    /\ register_of self' 0xFE = register_of self 0xFE.
Proof.
  intros Hc Hc' Hne Hopen. exists (wrote_channel self ch on off).
  destruct (ticks_wrote_channel_other self ch ch' on off Hc Hc' Hne) as [Hon Hoff].
  split; [now apply set_pwm_open|].
  split; [exact Hon|]. split; [exact Hoff|].
  split; apply register_of_wrote_channel_other;
    rewrite !byte_small by lia; lia.
Qed.

Lemma X2_witness :
  exists self' : PCA9685,
    DonkeyMotorTest.set_pwm 0 0 442 (wrote_channel pca_60 1 0 368) = (Ok tt, self')
    /\ on_ticks self' 1 = on_ticks (wrote_channel pca_60 1 0 368) 1
    /\ off_ticks self' 1 = off_ticks (wrote_channel pca_60 1 0 368) 1
    /\ register_of self' 0x00 = register_of (wrote_channel pca_60 1 0 368) 0x00
    /\ register_of self' 0xFE = register_of (wrote_channel pca_60 1 0 368) 0xFE.
Proof.
  apply (X2_set_pwm_leaves_other_channels 0 1 0 442 (wrote_channel pca_60 1 0 368)).
  - lia.
  - lia.
  - lia.
  - reflexivity.
Defined.

(** ** [set_pulse]: the three scripts compared, and the order of counts *)

(** X3.  For a pulse width inside [0.5, 2.5] the three [set_pulse] methods
    do the same thing, whatever the state of the object (bus open or closed,
    frequency zero or not): the clamp of donkey_motor_test.py changes nothing
    there. *)
Theorem X3_set_pulse_implementations_agree_in_range (ch : Z) (p : Q) (self : PCA9685) :
  (0.5 <= p)%Q -> (p <= 2.5)%Q ->
  DonkeyMotorTest.set_pulse ch p self = DemoScript.set_pulse ch p self
  /\ DonkeyMotorTest.set_pulse ch p self = SteeringCalibration.set_pulse ch p self.
Proof.
  intros Lo Hi.
  assert (E : DonkeyMotorTest.clamp_pulse p = p).
  { destruct (clamp_pulse_cases p) as [[H _]|[[H _]|(_ & _ & E)]];
      [exfalso; lra | exfalso; lra | exact E]. }
  assert (D : DonkeyMotorTest.set_pulse ch p self = DemoScript.set_pulse ch p self)
    by now rewrite set_pulse_run, demo_set_pulse_run, E.
  split; [exact D|].
  rewrite D. symmetry. apply calibration_set_pulse_run.
Qed.

Lemma X3_witness :
  DonkeyMotorTest.set_pulse 0 1.55 pca_60 = DemoScript.set_pulse 0 1.55 pca_60
  /\ DonkeyMotorTest.set_pulse 0 1.55 pca_60 = SteeringCalibration.set_pulse 0 1.55 pca_60.
Proof.
  apply (X3_set_pulse_implementations_agree_in_range 0 1.55 pca_60).
  - discriminate.
  - discriminate.
Defined.





(** ** A frequency of zero, and a bus that was closed *)

Lemma PCA9685_eta (self : PCA9685) :
  {| bus := bus self; address := address self; frequency := frequency self |} = self.
Proof. now destruct self. Qed.

(** X5.  With a frequency of 0 every conversion divides by zero.
    [set_pulse] raises ZeroDivisionError before any transfer, on an open bus
    and on a closed one, and leaves the object as it was.  [init_pca9685]
    raises it after its first write only (the wake-up write of 0 to the mode
    register), so the constructor fails with ZeroDivisionError having opened
    the bus and not closed it. *)
Theorem X5_zero_frequency_raises (ch : Z) (p : Q) (self : PCA9685)
    (regs : gmap (Z * Z) Z) (addr : Z) (f : Q) :
  (frequency self == 0)%Q -> (f == 0)%Q ->
  DonkeyMotorTest.set_pulse ch p self = (Raise ZeroDivisionError, self)
  /\ DemoScript.set_pulse ch p self = (Raise ZeroDivisionError, self)
  /\ SteeringCalibration.set_pulse ch p self = (Raise ZeroDivisionError, self)
  /\ (is_open (bus self) = true ->
      init_pca9685 self = (Raise ZeroDivisionError, wrote self 0x00 0x00)
      /\ is_open (bus (wrote self 0x00 0x00)) = true)
  /\ PCA9685_new regs addr f = Raise ZeroDivisionError.
Proof.
  intros Hz Fz.
  assert (I : forall s : PCA9685, is_open (bus s) = true -> (frequency s == 0)%Q ->
              init_pca9685 s = (Raise ZeroDivisionError, wrote s 0x00 0x00)).
  { intros s Hopen Hs. unfold init_pca9685, bind at 1.
    rewrite (bus_write_open _ _ s Hopen).
    unfold bind at 1, gets at 1. unfold bind at 1, lift.
    rewrite wrote_frequency, (prescale_value_zero _ Hs). reflexivity. }
  split; [now rewrite set_pulse_run, pulse_value_zero|].
  split; [now rewrite demo_set_pulse_run, pulse_value_zero|].
  split; [now rewrite calibration_set_pulse_run, demo_set_pulse_run, pulse_value_zero|].
  split.
  - intros Hopen. split; [now apply I | reflexivity].
  - unfold PCA9685_new. now rewrite I.
Qed.

Lemma X5_witness :
  DonkeyMotorTest.set_pulse 0 1.5 (mkPCA9685 (SMBus_open ∅) 0x40 0)
  = (Raise ZeroDivisionError, mkPCA9685 (SMBus_open ∅) 0x40 0)
  /\ DemoScript.set_pulse 0 1.5 (mkPCA9685 (SMBus_open ∅) 0x40 0)
     = (Raise ZeroDivisionError, mkPCA9685 (SMBus_open ∅) 0x40 0)
  /\ SteeringCalibration.set_pulse 0 1.5 (mkPCA9685 (SMBus_open ∅) 0x40 0)
     = (Raise ZeroDivisionError, mkPCA9685 (SMBus_open ∅) 0x40 0)
  /\ (is_open (bus (mkPCA9685 (SMBus_open ∅) 0x40 0)) = true ->
      init_pca9685 (mkPCA9685 (SMBus_open ∅) 0x40 0)
      = (Raise ZeroDivisionError, wrote (mkPCA9685 (SMBus_open ∅) 0x40 0) 0x00 0x00)
      /\ is_open (bus (wrote (mkPCA9685 (SMBus_open ∅) 0x40 0) 0x00 0x00)) = true)
  /\ PCA9685_new ∅ 0x40 0 = Raise ZeroDivisionError.
Proof.
  apply (X5_zero_frequency_raises 0 1.5 (mkPCA9685 (SMBus_open ∅) 0x40 0) ∅ 0x40 0).
  - reflexivity.
  - reflexivity.
Defined.




(** ** Construction *)

Lemma register_of_did_read (self : PCA9685) (r r' : Z) :
  register_of (did_read self r) r' = register_of self r'.
Proof. reflexivity. Qed.

(** What the registers hold after [init_pca9685]. *)
Lemma register_of_initialised (self : PCA9685) (prescale r : Z) :
  register_of (initialised self prescale) r
  = if decide (byte r = 0x00) then 0x20
    else if decide (byte r = 0xFE) then byte prescale
    else register_of self r.
Proof.
  unfold initialised. rewrite !register_of_wrote, register_of_did_read, register_of_wrote.
  change (byte 0) with 0. change (byte 254) with 254.
  change (byte 16) with 16. change (byte 32) with 32.
  destruct (decide (byte r = 0)) as [E0|N0]; [reflexivity|].
  destruct (decide (byte r = 254)); reflexivity.
Qed.



(** X8.  For a frequency from 24 Hz to 1525 Hz the prescale lies in
    [3, 253], so it fits the 8-bit register: after [init_pca9685] register
    0xFE holds the prescale itself. *)
Theorem X8_prescale_fits_the_register (self : PCA9685) :
  is_open (bus self) = true ->
  (24 <= frequency self)%Q -> (frequency self <= 1525)%Q ->
  exists (self' : PCA9685) (prescale : Z),
    prescale_value (frequency self) = Ok prescale
    /\ 3 <= prescale <= 253
    /\ init_pca9685 self = (Ok tt, self')
    /\ register_of self' 0xFE = prescale.
Proof.
  intros Hopen Lo Hi.
  assert (Hf : ~ (frequency self == 0)%Q) by lra.
  assert (R : 3 <= py_int (25000000 / (4096 * frequency self) - 1) <= 253).
  { split.
    - change 3 with (py_int (25000000 / (4096 * 1525) - 1)).
      apply py_int_mono. apply prescale_quotient_antitone; lra.
    - change 253 with (py_int (25000000 / (4096 * 24) - 1)).
      apply py_int_mono. apply prescale_quotient_antitone; [reflexivity | exact Lo]. }
  exists (initialised self (py_int (25000000 / (4096 * frequency self) - 1))),
         (py_int (25000000 / (4096 * frequency self) - 1)).
  split; [now apply prescale_value_eq|]. split; [exact R|].
  split; [now apply init_pca9685_open|].
  rewrite register_of_initialised. change (byte 254) with 254.
  destruct (decide (254 = 0)) as [E|_]; [discriminate E|].
  destruct (decide (254 = 254)) as [_|N]; [|contradiction].
  apply byte_small. lia.
Qed.

Lemma X8_witness :
  exists (self' : PCA9685) (prescale : Z),
    prescale_value (frequency pca_60) = Ok prescale
    /\ 3 <= prescale <= 253
    /\ init_pca9685 pca_60 = (Ok tt, self')
    /\ register_of self' 0xFE = prescale.
Proof.
  apply (X8_prescale_fits_the_register pca_60).
  - reflexivity.
  - discriminate.
  - discriminate.
Defined.

(** ** The controller: commands out of range, [stop] *)

Lemma clamp_command_idempotent (x : Q) :
  DonkeyMotorTest.clamp_command (DonkeyMotorTest.clamp_command x)
  = DonkeyMotorTest.clamp_command x.
Proof.
  destruct (clamp_command_cases x) as [[_ ->]|[[_ ->]|(Lo & Hi & ->)]];
    try reflexivity.
  destruct (clamp_command_cases x) as [[H _]|[[H _]|(_ & _ & E)]];
    [exfalso; lra | exfalso; lra | exact E].
Qed.

(** X9.  A command outside [-1, 1] acts as the nearer end of the interval:
    [set_steering(x)] and [set_throttle(x)] do what the same call does with
    the clamped command, so above 1 what it does at 1, below -1 what it does
    at -1. *)
Theorem X9_commands_saturate (x : Q) (car : DonkeyMotorTest.DonkeyCarController) :
  DonkeyMotorTest.set_steering x car
  = DonkeyMotorTest.set_steering (DonkeyMotorTest.clamp_command x) car
  /\ DonkeyMotorTest.set_throttle x car
     = DonkeyMotorTest.set_throttle (DonkeyMotorTest.clamp_command x) car
  /\ ((1 < x)%Q ->
      DonkeyMotorTest.set_steering x car = DonkeyMotorTest.set_steering 1 car
      /\ DonkeyMotorTest.set_throttle x car = DonkeyMotorTest.set_throttle 1 car)
  /\ ((x < -1)%Q ->
      DonkeyMotorTest.set_steering x car = DonkeyMotorTest.set_steering (-1) car
      /\ DonkeyMotorTest.set_throttle x car = DonkeyMotorTest.set_throttle (-1) car).
Proof.
  assert (S : forall y, DonkeyMotorTest.set_steering y car
               = DonkeyMotorTest.set_steering (DonkeyMotorTest.clamp_command y) car).
  { intros y. rewrite !set_steering_run. now rewrite clamp_command_idempotent. }
  assert (T : forall y, DonkeyMotorTest.set_throttle y car
               = DonkeyMotorTest.set_throttle (DonkeyMotorTest.clamp_command y) car).
  { intros y. rewrite !set_throttle_run. now rewrite clamp_command_idempotent. }
  split; [apply S|]. split; [apply T|]. split; intros H.
  - assert (E : DonkeyMotorTest.clamp_command x = 1%Q).
    { destruct (clamp_command_cases x) as [[L _]|[[_ E]|(_ & L & _)]];
        [exfalso; lra | exact E | exfalso; lra]. }
    now rewrite (S x), (T x), E.
  - assert (E : DonkeyMotorTest.clamp_command x = (-1)%Q).
    { destruct (clamp_command_cases x) as [[_ E]|[[L _]|(L & _ & _)]];
        [exact E | exfalso; lra | exfalso; lra]. }
    now rewrite (S x), (T x), E.
Qed.

Lemma X9_witness :
  DonkeyMotorTest.set_steering 2 car_60 = DonkeyMotorTest.set_steering 1 car_60
  /\ DonkeyMotorTest.set_throttle 2 car_60 = DonkeyMotorTest.set_throttle 1 car_60.
Proof.
  apply (proj1 (proj2 (proj2 (X9_commands_saturate 2 car_60)))).
  reflexivity.
Defined.

Lemma neutral_command (center half_range : Q) :
  (center + DonkeyMotorTest.clamp_command 0 * half_range == center)%Q.
Proof.
  change (DonkeyMotorTest.clamp_command 0) with 0%Q. ring.
Qed.

Lemma stop_run (car : DonkeyMotorTest.DonkeyCarController) :
  is_open (bus (DonkeyMotorTest.pwm car)) = true ->
  ~ (frequency (DonkeyMotorTest.pwm car) == 0)%Q ->
  DonkeyMotorTest.stop car
  = (Ok tt,
     DonkeyMotorTest.set_pwm_field
       (wrote_channel
          (wrote_channel (DonkeyMotorTest.pwm car)
             (DonkeyMotorTest.throttle_channel car) 0
             (py_int (DonkeyMotorTest.clamp_pulse (DonkeyMotorTest.throttle_neutral car)
                      * frequency (DonkeyMotorTest.pwm car) * 4096 / 1000)))
          (DonkeyMotorTest.steering_channel car) 0
          (py_int (DonkeyMotorTest.clamp_pulse (DonkeyMotorTest.steering_center car)
                   * frequency (DonkeyMotorTest.pwm car) * 4096 / 1000)))
       car).
Proof.
  intros Hopen Hf. unfold DonkeyMotorTest.stop, bind.
  rewrite (set_throttle_commands car 0 (DonkeyMotorTest.throttle_neutral car))
    by (symmetry; apply neutral_command).
  rewrite on_pwm_set_pulse_open by assumption.
  rewrite (set_steering_commands _ 0 (DonkeyMotorTest.steering_center car))
    by (symmetry; apply neutral_command).
  rewrite on_pwm_set_pulse_open by (reflexivity || exact Hf).
  reflexivity.
Qed.

Lemma demo_stop_run (demo : DemoScript.PiRacerDemo) :
  is_open (bus (DemoScript.pwm demo)) = true ->
  ~ (frequency (DemoScript.pwm demo) == 0)%Q ->
  DemoScript.stop demo
  = (Ok tt,
     DemoScript.set_pwm_field
       (wrote_channel
          (wrote_channel (DemoScript.pwm demo)
             (DemoScript.throttle_channel demo) 0
             (py_int (DemoScript.throttle_neutral demo
                      * frequency (DemoScript.pwm demo) * 4096 / 1000)))
          (DemoScript.steering_channel demo) 0
          (py_int (DemoScript.steering_center demo
                   * frequency (DemoScript.pwm demo) * 4096 / 1000)))
       demo).
Proof.
  intros Hopen Hf.
  unfold DemoScript.stop, DemoScript.set_throttle, DemoScript.set_steering, bind, gets.
  rewrite demo_on_pwm_set_pulse_open by assumption.
  cbn [DemoScript.steering_channel DemoScript.steering_center DemoScript.set_pwm_field].
  rewrite demo_on_pwm_set_pulse_open by (reflexivity || exact Hf).
  reflexivity.
Qed.

(** X10.  [stop] neutralises the throttle before it recentres the steering:
    on a usable controller it returns after eight writes, first the four of
    the throttle channel with the count of the neutral pulse, then the four
    of the steering channel with the count of the center pulse (each pulse
    clamped in donkey_motor_test.py, as given in demo_script.py). *)
Theorem X10_stop_writes_throttle_then_steering
    (car : DonkeyMotorTest.DonkeyCarController) (demo : DemoScript.PiRacerDemo) :
  is_open (bus (DonkeyMotorTest.pwm car)) = true ->
  ~ (frequency (DonkeyMotorTest.pwm car) == 0)%Q ->
  is_open (bus (DemoScript.pwm demo)) = true ->
  ~ (frequency (DemoScript.pwm demo) == 0)%Q ->
  (exists (car' : DonkeyMotorTest.DonkeyCarController) (t_neutral t_center : Z),
      DonkeyMotorTest.stop car = (Ok tt, car')
      /\ pulse_value (frequency (DonkeyMotorTest.pwm car))
           (DonkeyMotorTest.clamp_pulse (DonkeyMotorTest.throttle_neutral car))
         = Ok t_neutral
      /\ pulse_value (frequency (DonkeyMotorTest.pwm car))
           (DonkeyMotorTest.clamp_pulse (DonkeyMotorTest.steering_center car))
         = Ok t_center
      /\ wire (bus (DonkeyMotorTest.pwm car'))
         = wire (bus (DonkeyMotorTest.pwm car))
           ++ channel_writes (address (DonkeyMotorTest.pwm car))
                (DonkeyMotorTest.throttle_channel car) 0 t_neutral
           ++ channel_writes (address (DonkeyMotorTest.pwm car))
                (DonkeyMotorTest.steering_channel car) 0 t_center)
  /\ (exists (demo' : DemoScript.PiRacerDemo) (t_neutral t_center : Z),
      DemoScript.stop demo = (Ok tt, demo')
      /\ pulse_value (frequency (DemoScript.pwm demo)) (DemoScript.throttle_neutral demo)
         = Ok t_neutral
      /\ pulse_value (frequency (DemoScript.pwm demo)) (DemoScript.steering_center demo)
         = Ok t_center
      /\ wire (bus (DemoScript.pwm demo'))
         = wire (bus (DemoScript.pwm demo))
           ++ channel_writes (address (DemoScript.pwm demo))
                (DemoScript.throttle_channel demo) 0 t_neutral
           ++ channel_writes (address (DemoScript.pwm demo))
                (DemoScript.steering_channel demo) 0 t_center).
Proof.
  intros Hopen Hf Dopen Df. split.
  - eexists _, _, _. split; [now apply stop_run|].
    split; [now apply pulse_value_eq|]. split; [now apply pulse_value_eq|].
    rewrite pwm_set_pwm_field, !wrote_channel_wire, wrote_channel_address.
    now rewrite <- app_assoc.
  - eexists _, _, _. split; [now apply demo_stop_run|].
    split; [now apply pulse_value_eq|]. split; [now apply pulse_value_eq|].
    rewrite demo_pwm_set_pwm_field, !wrote_channel_wire, wrote_channel_address.
    now rewrite <- app_assoc.
Qed.

Lemma X10_witness :
  (exists (car' : DonkeyMotorTest.DonkeyCarController) (t_neutral t_center : Z),
      DonkeyMotorTest.stop car_60 = (Ok tt, car')
      /\ pulse_value (frequency (DonkeyMotorTest.pwm car_60))
           (DonkeyMotorTest.clamp_pulse (DonkeyMotorTest.throttle_neutral car_60))
         = Ok t_neutral
      /\ pulse_value (frequency (DonkeyMotorTest.pwm car_60))
           (DonkeyMotorTest.clamp_pulse (DonkeyMotorTest.steering_center car_60))
         = Ok t_center
      /\ wire (bus (DonkeyMotorTest.pwm car'))
         = wire (bus (DonkeyMotorTest.pwm car_60))
           ++ channel_writes (address (DonkeyMotorTest.pwm car_60))
                (DonkeyMotorTest.throttle_channel car_60) 0 t_neutral
           ++ channel_writes (address (DonkeyMotorTest.pwm car_60))
                (DonkeyMotorTest.steering_channel car_60) 0 t_center)
  /\ (exists (demo' : DemoScript.PiRacerDemo) (t_neutral t_center : Z),
      DemoScript.stop demo_60 = (Ok tt, demo')
      /\ pulse_value (frequency (DemoScript.pwm demo_60)) (DemoScript.throttle_neutral demo_60)
         = Ok t_neutral
      /\ pulse_value (frequency (DemoScript.pwm demo_60)) (DemoScript.steering_center demo_60)
         = Ok t_center
      /\ wire (bus (DemoScript.pwm demo'))
         = wire (bus (DemoScript.pwm demo_60))
           ++ channel_writes (address (DemoScript.pwm demo_60))
                (DemoScript.throttle_channel demo_60) 0 t_neutral
           ++ channel_writes (address (DemoScript.pwm demo_60))
                (DemoScript.steering_channel demo_60) 0 t_center).
Proof.
  apply (X10_stop_writes_throttle_then_steering car_60 demo_60).
  - reflexivity.
  - discriminate.
  - reflexivity.
  - discriminate.
Defined.

(** Writing a channel a second time with the same counts, after any one
    other channel write, changes no register. *)
Lemma rewrote_channels_same (self : PCA9685) (a b ta tb r : Z) :
  register_of
    (wrote_channel (wrote_channel (wrote_channel (wrote_channel self a 0 ta) b 0 tb)
                      a 0 ta) b 0 tb) r
  = register_of (wrote_channel (wrote_channel self a 0 ta) b 0 tb) r.
Proof.
  unfold wrote_channel. rewrite !register_of_wrote.
  repeat match goal with
         | |- context [decide ?P] => destruct (decide P)
         end; reflexivity.
Qed.

(** X11.  [stop] twice is [stop] once, as far as the chip goes: the second
    call succeeds and leaves every register, hence every channel's counts,
    as the first call left them. *)
Theorem X11_stop_twice_leaves_the_same_registers
    (car : DonkeyMotorTest.DonkeyCarController) :
  is_open (bus (DonkeyMotorTest.pwm car)) = true ->
  ~ (frequency (DonkeyMotorTest.pwm car) == 0)%Q ->
  exists car1 car2 : DonkeyMotorTest.DonkeyCarController,
    DonkeyMotorTest.stop car = (Ok tt, car1)
    /\ DonkeyMotorTest.stop car1 = (Ok tt, car2)
    /\ (forall r : Z,
          register_of (DonkeyMotorTest.pwm car2) r = register_of (DonkeyMotorTest.pwm car1) r)
    /\ (forall ch : Z,
          on_ticks (DonkeyMotorTest.pwm car2) ch = on_ticks (DonkeyMotorTest.pwm car1) ch
          /\ off_ticks (DonkeyMotorTest.pwm car2) ch = off_ticks (DonkeyMotorTest.pwm car1) ch).
Proof.
  intros Hopen Hf.
  eexists _, _. split; [now apply stop_run|].
  split; [apply stop_run; [reflexivity | exact Hf]|].
  match goal with |- ?A /\ _ => assert (R : A) end.
  { intros r. rewrite !pwm_set_pwm_field. apply rewrote_channels_same. }
  split; [exact R|].
  intros ch. unfold on_ticks, off_ticks. now rewrite !R.
Qed.

Lemma X11_witness :
  exists car1 car2 : DonkeyMotorTest.DonkeyCarController,
    DonkeyMotorTest.stop car_60 = (Ok tt, car1)
    /\ DonkeyMotorTest.stop car1 = (Ok tt, car2)
    /\ (forall r : Z,
          register_of (DonkeyMotorTest.pwm car2) r = register_of (DonkeyMotorTest.pwm car1) r)
    /\ (forall ch : Z,
          on_ticks (DonkeyMotorTest.pwm car2) ch = on_ticks (DonkeyMotorTest.pwm car1) ch
          /\ off_ticks (DonkeyMotorTest.pwm car2) ch = off_ticks (DonkeyMotorTest.pwm car1) ch).
Proof.
  apply (X11_stop_twice_leaves_the_same_registers car_60).
  - reflexivity.
  - discriminate.
Defined.

(** ** Construction of the two application objects *)

Lemma ticks_initialised (self : PCA9685) (prescale ch : Z) :
  0 <= ch <= 15 ->
  on_ticks (initialised self prescale) ch = on_ticks self ch
  /\ off_ticks (initialised self prescale) ch = off_ticks self ch.
Proof.
  intros Hc. unfold on_ticks, off_ticks. rewrite !register_of_initialised.
  rewrite !(byte_small (6 + 4 * ch)), !(byte_small (6 + 4 * ch + 1)),
    !(byte_small (6 + 4 * ch + 2)), !(byte_small (6 + 4 * ch + 3)) by lia.
  repeat (destruct (decide _) as [?|?]; [lia|]). now split.
Qed.

Lemma DonkeyCarController_new_run (regs : gmap (Z * Z) Z) :
  exists t_steering t_throttle prescale : Z,
    t_steering = 442 /\ t_throttle = 368 /\ prescale = 100
    /\ DonkeyMotorTest.DonkeyCarController_new regs
       = Ok (DonkeyMotorTest.set_pwm_field
               (wrote_channel
                  (wrote_channel
                     (initialised (mkPCA9685 (SMBus_open regs) 0x40 60) prescale)
                     0 0 t_steering)
                  1 0 t_throttle)
               car_60).
Proof.
  unfold DonkeyMotorTest.DonkeyCarController_new, PCA9685_new.
  rewrite init_pca9685_open by (reflexivity || discriminate).
  unfold bind.
  rewrite set_steering_run, on_pwm_set_pulse_open by (reflexivity || discriminate).
  rewrite set_throttle_run, on_pwm_set_pulse_open by (reflexivity || discriminate).
  eexists _, _, _. split; [|split; [|split; [|reflexivity]]];
    vm_compute; reflexivity.
Qed.

Lemma PiRacerDemo_new_run (regs : gmap (Z * Z) Z) :
  exists t_steering t_throttle prescale : Z,
    t_steering = 442 /\ t_throttle = 368 /\ prescale = 100
    /\ DemoScript.PiRacerDemo_new regs
       = Ok (DemoScript.set_pwm_field
               (wrote_channel
                  (wrote_channel
                     (initialised (mkPCA9685 (SMBus_open regs) 0x40 60) prescale)
                     1 0 t_throttle)
                  0 0 t_steering)
               demo_60).
Proof.
  unfold DemoScript.PiRacerDemo_new, PCA9685_new.
  rewrite init_pca9685_open by (reflexivity || discriminate).
  rewrite demo_stop_run by (reflexivity || discriminate).
  eexists _, _, _. split; [|split; [|split; [|reflexivity]]];
    vm_compute; reflexivity.
Qed.

(** The registers after the constructor's two channel writes, in either
    order, on a chip that was just initialised. *)
Lemma neutral_registers (p0 : PCA9685) (a b ta tb : Z) :
  0 <= a <= 1 -> 0 <= b <= 1 -> a <> b ->
  0 <= ta <= 4095 -> 0 <= tb <= 4095 ->
  register_of (wrote_channel (wrote_channel (initialised p0 100) a 0 ta) b 0 tb) 0x00 = 0x20
  /\ register_of (wrote_channel (wrote_channel (initialised p0 100) a 0 ta) b 0 tb) 0xFE = 100
  /\ on_ticks (wrote_channel (wrote_channel (initialised p0 100) a 0 ta) b 0 tb) a = 0
  /\ off_ticks (wrote_channel (wrote_channel (initialised p0 100) a 0 ta) b 0 tb) a = ta
  /\ on_ticks (wrote_channel (wrote_channel (initialised p0 100) a 0 ta) b 0 tb) b = 0
  /\ off_ticks (wrote_channel (wrote_channel (initialised p0 100) a 0 ta) b 0 tb) b = tb
  /\ forall ch : Z, 2 <= ch <= 15 ->
       on_ticks (wrote_channel (wrote_channel (initialised p0 100) a 0 ta) b 0 tb) ch
       = on_ticks p0 ch
       /\ off_ticks (wrote_channel (wrote_channel (initialised p0 100) a 0 ta) b 0 tb) ch
          = off_ticks p0 ch.
Proof.
  intros Ha Hb Hab Hta Htb.
  split.
  { rewrite !register_of_wrote_channel_other by (rewrite !byte_small by lia; lia).
    now rewrite register_of_initialised. }
  split.
  { rewrite !register_of_wrote_channel_other by (rewrite !byte_small by lia; lia).
    now rewrite register_of_initialised. }
  destruct (ticks_wrote_channel_other (wrote_channel (initialised p0 100) a 0 ta) b a 0 tb)
    as [A1 A2]; [lia | lia | lia |].
  destruct (ticks_wrote_channel_mod (initialised p0 100) a 0 ta) as [A3 A4]; [lia|].
  destruct (ticks_wrote_channel_mod (wrote_channel (initialised p0 100) a 0 ta) b 0 tb)
    as [B1 B2]; [lia|].
  rewrite A1, A2, A3, A4, B1, B2.
  rewrite !Z.mod_small by lia.
  repeat split; try reflexivity.
  - destruct (ticks_wrote_channel_other (wrote_channel (initialised p0 100) a 0 ta)
                b ch 0 tb) as [-> _]; [lia | lia | lia |].
    destruct (ticks_wrote_channel_other (initialised p0 100) a ch 0 ta)
      as [-> _]; [lia | lia | lia |].
    apply ticks_initialised. lia.
  - destruct (ticks_wrote_channel_other (wrote_channel (initialised p0 100) a 0 ta)
                b ch 0 tb) as [_ ->]; [lia | lia | lia |].
    destruct (ticks_wrote_channel_other (initialised p0 100) a ch 0 ta)
      as [_ ->]; [lia | lia | lia |].
    apply ticks_initialised. lia.
Qed.

(** X12.  Whatever the chip holds beforehand, [DonkeyCarController()] and
    [PiRacerDemo()] return with the bus open, the mode register at 0x20, the
    prescale register at 100, the steering channel 0 at ON 0 and OFF 442
    (1.8 ms) and the throttle channel 1 at ON 0 and OFF 368 (1.5 ms); the
    channels 2 to 15 keep the counts they had. *)
Theorem X12_construction_sets_the_neutral_positions (regs : gmap (Z * Z) Z) :
  (exists car : DonkeyMotorTest.DonkeyCarController,
      DonkeyMotorTest.DonkeyCarController_new regs = Ok car
      /\ is_open (bus (DonkeyMotorTest.pwm car)) = true
      /\ register_of (DonkeyMotorTest.pwm car) 0x00 = 0x20
      /\ register_of (DonkeyMotorTest.pwm car) 0xFE = 100
      /\ on_ticks (DonkeyMotorTest.pwm car) 0 = 0
      /\ off_ticks (DonkeyMotorTest.pwm car) 0 = 442
      /\ on_ticks (DonkeyMotorTest.pwm car) 1 = 0
      /\ off_ticks (DonkeyMotorTest.pwm car) 1 = 368
      /\ forall ch : Z, 2 <= ch <= 15 ->
           on_ticks (DonkeyMotorTest.pwm car) ch
           = on_ticks (mkPCA9685 (SMBus_open regs) 0x40 60) ch
           /\ off_ticks (DonkeyMotorTest.pwm car) ch
              = off_ticks (mkPCA9685 (SMBus_open regs) 0x40 60) ch)
  /\ (exists demo : DemoScript.PiRacerDemo,
      DemoScript.PiRacerDemo_new regs = Ok demo
      /\ is_open (bus (DemoScript.pwm demo)) = true
      /\ register_of (DemoScript.pwm demo) 0x00 = 0x20
      /\ register_of (DemoScript.pwm demo) 0xFE = 100
      /\ on_ticks (DemoScript.pwm demo) 0 = 0
      /\ off_ticks (DemoScript.pwm demo) 0 = 442
      /\ on_ticks (DemoScript.pwm demo) 1 = 0
      /\ off_ticks (DemoScript.pwm demo) 1 = 368
      /\ forall ch : Z, 2 <= ch <= 15 ->
           on_ticks (DemoScript.pwm demo) ch
           = on_ticks (mkPCA9685 (SMBus_open regs) 0x40 60) ch
           /\ off_ticks (DemoScript.pwm demo) ch
              = off_ticks (mkPCA9685 (SMBus_open regs) 0x40 60) ch).
Proof.
  split.
  - destruct (DonkeyCarController_new_run regs) as (ts & tt' & P & -> & -> & -> & E).
    eexists. split; [exact E|]. rewrite pwm_set_pwm_field.
    split; [reflexivity|].
    destruct (neutral_registers (mkPCA9685 (SMBus_open regs) 0x40 60) 0 1 442 368)
      as (M & Pr & On0 & Off0 & On1 & Off1 & Fr); try lia.
    repeat split; try assumption; now apply Fr.
  - destruct (PiRacerDemo_new_run regs) as (ts & tt' & P & -> & -> & -> & E).
    eexists. split; [exact E|]. rewrite demo_pwm_set_pwm_field.
    split; [reflexivity|].
    destruct (neutral_registers (mkPCA9685 (SMBus_open regs) 0x40 60) 1 0 368 442)
      as (M & Pr & On1 & Off1 & On0 & Off0 & Fr); try lia.
    repeat split; try assumption; now apply Fr.
Qed.

(** ** Recalibration, and one axis at a time *)

(** X13.  [set_steering_center] makes no transfer and changes the stored
    center only; it accepts any value.  The next [set_steering] then uses
    the new center, and at 60 Hz the count it writes to the steering channel
    stays in [122, 614] whatever the center, the half range and the command
    are. *)
Theorem X13_recalibrated_center_is_used_and_clamped
    (car : DonkeyMotorTest.DonkeyCarController) (center_ms x : Q) :
  is_open (bus (DonkeyMotorTest.pwm car)) = true ->
  (frequency (DonkeyMotorTest.pwm car) == 60)%Q ->
  exists (car' : DonkeyMotorTest.DonkeyCarController) (t : Z),
    DonkeyMotorTest.set_steering_center center_ms car = (Ok tt, car')
    /\ DonkeyMotorTest.pwm car' = DonkeyMotorTest.pwm car
    /\ DonkeyMotorTest.steering_center car' = center_ms
    /\ DonkeyMotorTest.steering_range car' = DonkeyMotorTest.steering_range car
    /\ DonkeyMotorTest.steering_channel car' = DonkeyMotorTest.steering_channel car
    /\ DonkeyMotorTest.throttle_channel car' = DonkeyMotorTest.throttle_channel car
    /\ DonkeyMotorTest.throttle_neutral car' = DonkeyMotorTest.throttle_neutral car
    /\ DonkeyMotorTest.throttle_range car' = DonkeyMotorTest.throttle_range car
    /\ pulse_value (frequency (DonkeyMotorTest.pwm car))
         (DonkeyMotorTest.clamp_pulse
            (center_ms
             + DonkeyMotorTest.clamp_command x * DonkeyMotorTest.steering_range car))
       = Ok t
    /\ 122 <= t <= 614
    /\ DonkeyMotorTest.set_steering x car'
       = (Ok tt,
          DonkeyMotorTest.set_pwm_field
            (wrote_channel (DonkeyMotorTest.pwm car)
               (DonkeyMotorTest.steering_channel car) 0 t)
            car').
Proof.
  intros Hopen Ef.
  destruct (ticks_of_clamped_60 (frequency (DonkeyMotorTest.pwm car))
              (center_ms
               + DonkeyMotorTest.clamp_command x * DonkeyMotorTest.steering_range car) Ef)
    as (t & Ht & Hr).
  eexists _, t. split; [reflexivity|].
  cbn [DonkeyMotorTest.pwm DonkeyMotorTest.steering_center DonkeyMotorTest.steering_range
       DonkeyMotorTest.steering_channel DonkeyMotorTest.throttle_channel
       DonkeyMotorTest.throttle_neutral DonkeyMotorTest.throttle_range].
  repeat (split; [reflexivity|]).
  split; [exact Ht|]. split; [exact Hr|].
  rewrite set_steering_run. unfold DonkeyMotorTest.on_pwm, zoom.
  cbn [DonkeyMotorTest.pwm DonkeyMotorTest.steering_center DonkeyMotorTest.steering_range
       DonkeyMotorTest.steering_channel].
  now rewrite set_pulse_run, Ht, set_pwm_open.
Qed.

Lemma X13_witness :
  exists (car' : DonkeyMotorTest.DonkeyCarController) (t : Z),
    DonkeyMotorTest.set_steering_center 9 car_60 = (Ok tt, car')
    /\ DonkeyMotorTest.pwm car' = DonkeyMotorTest.pwm car_60
    /\ DonkeyMotorTest.steering_center car' = 9%Q
    /\ DonkeyMotorTest.steering_range car' = DonkeyMotorTest.steering_range car_60
    /\ DonkeyMotorTest.steering_channel car' = DonkeyMotorTest.steering_channel car_60
    /\ DonkeyMotorTest.throttle_channel car' = DonkeyMotorTest.throttle_channel car_60
    /\ DonkeyMotorTest.throttle_neutral car' = DonkeyMotorTest.throttle_neutral car_60
    /\ DonkeyMotorTest.throttle_range car' = DonkeyMotorTest.throttle_range car_60
    /\ pulse_value (frequency (DonkeyMotorTest.pwm car_60))
         (DonkeyMotorTest.clamp_pulse
            (9 + DonkeyMotorTest.clamp_command 1 * DonkeyMotorTest.steering_range car_60))
       = Ok t
    /\ 122 <= t <= 614
    /\ DonkeyMotorTest.set_steering 1 car'
       = (Ok tt,
          DonkeyMotorTest.set_pwm_field
            (wrote_channel (DonkeyMotorTest.pwm car_60)
               (DonkeyMotorTest.steering_channel car_60) 0 t)
            car').
Proof.
  apply (X13_recalibrated_center_is_used_and_clamped car_60 9 1).
  - reflexivity.
  - reflexivity.
Defined.

(** X16.  The two axes do not disturb each other: when the steering and the
    throttle channels are two different channels of [0, 15], [set_steering]
    leaves the counts of the throttle channel as they were and
    [set_throttle] those of the steering channel, and neither changes the
    calibration. *)
Theorem X16_axes_are_independent (car : DonkeyMotorTest.DonkeyCarController) (x : Q) :
  is_open (bus (DonkeyMotorTest.pwm car)) = true ->
  ~ (frequency (DonkeyMotorTest.pwm car) == 0)%Q ->
  0 <= DonkeyMotorTest.steering_channel car <= 15 ->
  0 <= DonkeyMotorTest.throttle_channel car <= 15 ->
  DonkeyMotorTest.steering_channel car <> DonkeyMotorTest.throttle_channel car ->
  (exists car' : DonkeyMotorTest.DonkeyCarController,
      DonkeyMotorTest.set_steering x car = (Ok tt, car')
      /\ car' = DonkeyMotorTest.set_pwm_field (DonkeyMotorTest.pwm car') car
      /\ on_ticks (DonkeyMotorTest.pwm car') (DonkeyMotorTest.throttle_channel car)
         = on_ticks (DonkeyMotorTest.pwm car) (DonkeyMotorTest.throttle_channel car)
      /\ off_ticks (DonkeyMotorTest.pwm car') (DonkeyMotorTest.throttle_channel car)
         = off_ticks (DonkeyMotorTest.pwm car) (DonkeyMotorTest.throttle_channel car))
  /\ (exists car' : DonkeyMotorTest.DonkeyCarController,
      DonkeyMotorTest.set_throttle x car = (Ok tt, car')
      /\ car' = DonkeyMotorTest.set_pwm_field (DonkeyMotorTest.pwm car') car
      /\ on_ticks (DonkeyMotorTest.pwm car') (DonkeyMotorTest.steering_channel car)
         = on_ticks (DonkeyMotorTest.pwm car) (DonkeyMotorTest.steering_channel car)
      /\ off_ticks (DonkeyMotorTest.pwm car') (DonkeyMotorTest.steering_channel car)
         = off_ticks (DonkeyMotorTest.pwm car) (DonkeyMotorTest.steering_channel car)).
Proof.
  intros Hopen Hf Hs Ht Hne. split.
  - eexists. split.
    + rewrite set_steering_run. now apply on_pwm_set_pulse_open.
    + rewrite pwm_set_pwm_field. split; [reflexivity|].
      apply ticks_wrote_channel_other; assumption.
  - eexists. split.
    + rewrite set_throttle_run. now apply on_pwm_set_pulse_open.
    + rewrite pwm_set_pwm_field. split; [reflexivity|].
      apply ticks_wrote_channel_other; try assumption. congruence.
Qed.

Lemma X16_witness :
  (exists car' : DonkeyMotorTest.DonkeyCarController,
      DonkeyMotorTest.set_steering 0.5 car_60 = (Ok tt, car')
      /\ car' = DonkeyMotorTest.set_pwm_field (DonkeyMotorTest.pwm car') car_60
      /\ on_ticks (DonkeyMotorTest.pwm car') (DonkeyMotorTest.throttle_channel car_60)
         = on_ticks (DonkeyMotorTest.pwm car_60) (DonkeyMotorTest.throttle_channel car_60)
      /\ off_ticks (DonkeyMotorTest.pwm car') (DonkeyMotorTest.throttle_channel car_60)
         = off_ticks (DonkeyMotorTest.pwm car_60) (DonkeyMotorTest.throttle_channel car_60))
  /\ (exists car' : DonkeyMotorTest.DonkeyCarController,
      DonkeyMotorTest.set_throttle 0.5 car_60 = (Ok tt, car')
      /\ car' = DonkeyMotorTest.set_pwm_field (DonkeyMotorTest.pwm car') car_60
      /\ on_ticks (DonkeyMotorTest.pwm car') (DonkeyMotorTest.steering_channel car_60)
         = on_ticks (DonkeyMotorTest.pwm car_60) (DonkeyMotorTest.steering_channel car_60)
      /\ off_ticks (DonkeyMotorTest.pwm car') (DonkeyMotorTest.steering_channel car_60)
         = off_ticks (DonkeyMotorTest.pwm car_60) (DonkeyMotorTest.steering_channel car_60)).
Proof.
  apply (X16_axes_are_independent car_60 0.5).
  - reflexivity.
  - discriminate.
  - simpl. lia.
  - simpl. lia.
  - discriminate.
Defined.

(** ** The interrupt handler of demo_script.py *)

(** X14.  [signal_handler] never returns: it ends in [sys.exit(0)].  When
    the global [demo] is still [None] it touches nothing; when it holds a
    usable controller, the handler has first run [cleanup], so every channel
    is at 0 and the bus released when SystemExit(0) is raised. *)
Theorem X14_signal_handler_cleans_up_then_exits (demo : DemoScript.PiRacerDemo) :
  is_open (bus (DemoScript.pwm demo)) = true ->
  ~ (frequency (DemoScript.pwm demo) == 0)%Q ->
  DemoScript.signal_handler None = (Raise (SystemExit 0), None)
  /\ exists demo1 : DemoScript.PiRacerDemo,
       DemoScript.signal_handler (Some demo) = (Raise (SystemExit 0), Some demo1)
       /\ DemoScript.cleanup demo = (Ok tt, demo1)
       /\ is_open (bus (DemoScript.pwm demo1)) = false
       /\ forall ch : Z, 0 <= ch <= 15 ->
            on_ticks (DemoScript.pwm demo1) ch = 0
            /\ off_ticks (DemoScript.pwm demo1) ch = 0.
Proof.
  intros Hopen Hf. split; [reflexivity|].
  destruct (demo_cleanup_open demo Hopen Hf) as (p & E & Fp).
  destruct (closed_stopped_state p) as (Hclosed & _ & Hzero).
  exists (DemoScript.set_pwm_field (closed (stopped p (range 16))) demo).
  rewrite demo_pwm_set_pwm_field.
  split; [|split; [exact E|split; [exact Hclosed | exact Hzero]]].
  unfold DemoScript.signal_handler. now rewrite E.
Qed.

Lemma X14_witness :
  DemoScript.signal_handler None = (Raise (SystemExit 0), None)
  /\ exists demo1 : DemoScript.PiRacerDemo,
       DemoScript.signal_handler (Some demo_60) = (Raise (SystemExit 0), Some demo1)
       /\ DemoScript.cleanup demo_60 = (Ok tt, demo1)
       /\ is_open (bus (DemoScript.pwm demo1)) = false
       /\ forall ch : Z, 0 <= ch <= 15 ->
            on_ticks (DemoScript.pwm demo1) ch = 0
            /\ off_ticks (DemoScript.pwm demo1) ch = 0.
Proof.
  apply (X14_signal_handler_cleans_up_then_exits demo_60).
  - reflexivity.
  - discriminate.
Defined.

(** ** The transfers of [cleanup] *)

Lemma closed_wire (self : PCA9685) : wire (bus (closed self)) = wire (bus self).
Proof. reflexivity. Qed.

Lemma stopped_wire (chs : list Z) (self : PCA9685) :
  wire (bus (stopped self chs))
  = wire (bus self) ++ flat_map (fun ch => channel_writes (address self) ch 0 0) chs.
Proof.
  revert self. induction chs as [|c chs IH]; intros self.
  - cbn [flat_map]. now rewrite app_nil_r.
  - change (stopped self (c :: chs)) with (stopped (wrote_channel self c 0 0) chs).
    rewrite IH, wrote_channel_wire, wrote_channel_address.
    cbn [flat_map]. now rewrite <- app_assoc.
Qed.

Lemma cleanup_run (car : DonkeyMotorTest.DonkeyCarController) (car1 : DonkeyMotorTest.DonkeyCarController) :
  is_open (bus (DonkeyMotorTest.pwm car1)) = true ->
  DonkeyMotorTest.stop car = (Ok tt, car1) ->
  DonkeyMotorTest.cleanup car
  = (Ok tt,
     DonkeyMotorTest.set_pwm_field
       (closed (stopped (DonkeyMotorTest.pwm car1) (range 16))) car1).
Proof.
  intros Hopen Hstop. unfold DonkeyMotorTest.cleanup, bind. rewrite Hstop.
  unfold DonkeyMotorTest.on_pwm, zoom.
  rewrite stop_all_channels_open by exact Hopen.
  rewrite pwm_set_pwm_field, close_run. reflexivity.
Qed.

Lemma demo_cleanup_run (demo demo1 : DemoScript.PiRacerDemo) :
  is_open (bus (DemoScript.pwm demo1)) = true ->
  DemoScript.stop demo = (Ok tt, demo1) ->
  DemoScript.cleanup demo
  = (Ok tt,
     DemoScript.set_pwm_field (closed (stopped (DemoScript.pwm demo1) (range 16))) demo1).
Proof.
  intros Hopen Hstop. unfold DemoScript.cleanup, bind. rewrite Hstop.
  unfold DemoScript.on_pwm, zoom, DemoScript.stop_all_channels.
  rewrite for_each_stop_open by exact Hopen.
  rewrite demo_pwm_set_pwm_field. reflexivity.
Qed.

(** X17.  [cleanup] on a usable controller makes 72 register writes and no
    read, in this order: the four of the throttle channel with the neutral
    count, the four of the steering channel with the center count, then for
    each channel from 0 to 15 its four registers set to 0; the bus is closed
    after the last of them, and is closed when [cleanup] returns. *)
Theorem X17_cleanup_neutralises_then_zeroes
    (car : DonkeyMotorTest.DonkeyCarController) (demo : DemoScript.PiRacerDemo) :
  is_open (bus (DonkeyMotorTest.pwm car)) = true ->
  ~ (frequency (DonkeyMotorTest.pwm car) == 0)%Q ->
  is_open (bus (DemoScript.pwm demo)) = true ->
  ~ (frequency (DemoScript.pwm demo) == 0)%Q ->
  (exists (car1 : DonkeyMotorTest.DonkeyCarController) (t_neutral t_center : Z),
      DonkeyMotorTest.cleanup car = (Ok tt, car1)
      /\ is_open (bus (DonkeyMotorTest.pwm car1)) = false
      /\ pulse_value (frequency (DonkeyMotorTest.pwm car))
           (DonkeyMotorTest.clamp_pulse (DonkeyMotorTest.throttle_neutral car))
         = Ok t_neutral
      /\ pulse_value (frequency (DonkeyMotorTest.pwm car))
           (DonkeyMotorTest.clamp_pulse (DonkeyMotorTest.steering_center car))
         = Ok t_center
      /\ wire (bus (DonkeyMotorTest.pwm car1))
         = wire (bus (DonkeyMotorTest.pwm car))
           ++ channel_writes (address (DonkeyMotorTest.pwm car))
                (DonkeyMotorTest.throttle_channel car) 0 t_neutral
           ++ channel_writes (address (DonkeyMotorTest.pwm car))
                (DonkeyMotorTest.steering_channel car) 0 t_center
           ++ flat_map (fun ch => channel_writes (address (DonkeyMotorTest.pwm car)) ch 0 0)
                (range 16)
      /\ length (wire (bus (DonkeyMotorTest.pwm car1)))
         = (length (wire (bus (DonkeyMotorTest.pwm car))) + 72)%nat)
  /\ (exists (demo1 : DemoScript.PiRacerDemo) (t_neutral t_center : Z),
      DemoScript.cleanup demo = (Ok tt, demo1)
      /\ is_open (bus (DemoScript.pwm demo1)) = false
      /\ pulse_value (frequency (DemoScript.pwm demo)) (DemoScript.throttle_neutral demo)
         = Ok t_neutral
      /\ pulse_value (frequency (DemoScript.pwm demo)) (DemoScript.steering_center demo)
         = Ok t_center
      /\ wire (bus (DemoScript.pwm demo1))
         = wire (bus (DemoScript.pwm demo))
           ++ channel_writes (address (DemoScript.pwm demo))
                (DemoScript.throttle_channel demo) 0 t_neutral
           ++ channel_writes (address (DemoScript.pwm demo))
                (DemoScript.steering_channel demo) 0 t_center
           ++ flat_map (fun ch => channel_writes (address (DemoScript.pwm demo)) ch 0 0)
                (range 16)
      /\ length (wire (bus (DemoScript.pwm demo1)))
         = (length (wire (bus (DemoScript.pwm demo))) + 72)%nat).
Proof.
  intros Hopen Hf Dopen Df. split.
  - eexists _, _, _.
    split; [apply cleanup_run; [|now apply stop_run]; reflexivity|].
    split; [rewrite pwm_set_pwm_field; apply closed_is_closed|].
    split; [now apply pulse_value_eq|]. split; [now apply pulse_value_eq|].
    rewrite !pwm_set_pwm_field, closed_wire, stopped_wire, !wrote_channel_wire,
      !wrote_channel_address.
    split; [now rewrite <- !app_assoc|].
    rewrite !length_app. cbn [length channel_writes range seq map flat_map app]. lia.
  - eexists _, _, _.
    split; [apply demo_cleanup_run; [|now apply demo_stop_run]; reflexivity|].
    split; [rewrite demo_pwm_set_pwm_field; apply closed_is_closed|].
    split; [now apply pulse_value_eq|]. split; [now apply pulse_value_eq|].
    rewrite !demo_pwm_set_pwm_field, closed_wire, stopped_wire, !wrote_channel_wire,
      !wrote_channel_address.
    split; [now rewrite <- !app_assoc|].
    rewrite !length_app. cbn [length channel_writes range seq map flat_map app]. lia.
Qed.

Lemma X17_witness :
  (exists (car1 : DonkeyMotorTest.DonkeyCarController) (t_neutral t_center : Z),
      DonkeyMotorTest.cleanup car_60 = (Ok tt, car1)
      /\ is_open (bus (DonkeyMotorTest.pwm car1)) = false
      /\ pulse_value (frequency (DonkeyMotorTest.pwm car_60))
           (DonkeyMotorTest.clamp_pulse (DonkeyMotorTest.throttle_neutral car_60))
         = Ok t_neutral
      /\ pulse_value (frequency (DonkeyMotorTest.pwm car_60))
           (DonkeyMotorTest.clamp_pulse (DonkeyMotorTest.steering_center car_60))
         = Ok t_center
      /\ wire (bus (DonkeyMotorTest.pwm car1))
         = wire (bus (DonkeyMotorTest.pwm car_60))
           ++ channel_writes (address (DonkeyMotorTest.pwm car_60))
                (DonkeyMotorTest.throttle_channel car_60) 0 t_neutral
           ++ channel_writes (address (DonkeyMotorTest.pwm car_60))
                (DonkeyMotorTest.steering_channel car_60) 0 t_center
           ++ flat_map (fun ch => channel_writes (address (DonkeyMotorTest.pwm car_60)) ch 0 0)
                (range 16)
      /\ length (wire (bus (DonkeyMotorTest.pwm car1)))
         = (length (wire (bus (DonkeyMotorTest.pwm car_60))) + 72)%nat)
  /\ (exists (demo1 : DemoScript.PiRacerDemo) (t_neutral t_center : Z),
      DemoScript.cleanup demo_60 = (Ok tt, demo1)
      /\ is_open (bus (DemoScript.pwm demo1)) = false
      /\ pulse_value (frequency (DemoScript.pwm demo_60)) (DemoScript.throttle_neutral demo_60)
         = Ok t_neutral
      /\ pulse_value (frequency (DemoScript.pwm demo_60)) (DemoScript.steering_center demo_60)
         = Ok t_center
      /\ wire (bus (DemoScript.pwm demo1))
         = wire (bus (DemoScript.pwm demo_60))
           ++ channel_writes (address (DemoScript.pwm demo_60))
                (DemoScript.throttle_channel demo_60) 0 t_neutral
           ++ channel_writes (address (DemoScript.pwm demo_60))
                (DemoScript.steering_channel demo_60) 0 t_center
           ++ flat_map (fun ch => channel_writes (address (DemoScript.pwm demo_60)) ch 0 0)
                (range 16)
      /\ length (wire (bus (DemoScript.pwm demo1)))
         = (length (wire (bus (DemoScript.pwm demo_60))) + 72)%nat).
Proof.
  apply (X17_cleanup_neutralises_then_zeroes car_60 demo_60).
  - reflexivity.
  - discriminate.
  - reflexivity.
  - discriminate.
Defined.

(** * The driver on binary64 *)


(** ** The conversions on binary64: C2 and C3 *)


Module Binary64DriverFacts.
Import PrimFloat FloatOps SpecFloat.
Import Binary64Driver.
#[local] Set Warnings "-inexact-float".


Lemma f64_float_to_int_errors (x : float) (e : exn) :
  float_to_int x = Raise e -> e = OverflowError \/ e = ValueError.
Proof.
  unfold float_to_int. destruct (Prim2SF x); intros [= <-]; auto.
Qed.






(** *** Register writes *)

Lemma f64_set_bus_bus (self : PCA9685) : set_bus (bus self) self = self.
Proof. now destruct self. Qed.

Lemma f64_bus_write_open (r v : Z) (self : PCA9685) :
  is_open (bus self) = true -> bus_write r v self = (Ok tt, wrote self r v).
Proof.
  intros H. unfold bus_write, bind, gets, zoom, write_byte_data. simpl.
  now rewrite H.
Qed.

Lemma f64_bus_write_closed (r v : Z) (self : PCA9685) :
  is_open (bus self) = false -> bus_write r v self = (Raise TransferError, self).
Proof.
  intros H. unfold bus_write, bind, gets, zoom, write_byte_data. simpl.
  now rewrite H, f64_set_bus_bus.
Qed.

Lemma f64_bus_read_open (r : Z) (self : PCA9685) :
  is_open (bus self) = true ->
  bus_read r self = (Ok (register_of self r), did_read self r).
Proof.
  intros H. unfold bus_read, bind, gets, zoom, read_byte_data. simpl.
  now rewrite H.
Qed.

Lemma f64_set_pwm_open (ch on off : Z) (self : PCA9685) :
  is_open (bus self) = true ->
  set_pwm ch on off self = (Ok tt, wrote_channel self ch on off).
Proof.
  intros H. unfold set_pwm, wrote_channel, bind.
  rewrite (f64_bus_write_open _ _ self H).
  now rewrite !f64_bus_write_open by reflexivity.
Qed.

Lemma f64_register_of_wrote (self : PCA9685) (r v r' : Z) :
  register_of (wrote self r v) r'
  = if decide (byte r' = byte r) then byte v else register_of self r'.
Proof.
  unfold register_of, register_value, wrote. simpl.
  destruct (decide (byte r' = byte r)) as [E|N].
  - now rewrite E, lookup_insert_eq.
  - rewrite lookup_insert_ne; [reflexivity|]. intros [= E]. now apply N.
Qed.

Lemma f64_wrote_channel_wire (self : PCA9685) (ch on off : Z) :
  wire (bus (wrote_channel self ch on off))
  = wire (bus self) ++ channel_writes (address self) ch on off.
Proof.
  unfold wrote_channel, wrote, channel_writes. simpl.
  now rewrite <- !app_assoc.
Qed.

Lemma f64_set_pulse_run (ch : Z) (p : float) (self : PCA9685) :
  is_open (bus self) = true ->
  set_pulse ch p self
  = match pulse_value (frequency self) p with
    | Ok t => (Ok tt, wrote_channel self ch 0 t)
    | Raise e => (Raise e, self)
    end.
Proof.
  intros H. unfold set_pulse, bind, gets, lift.
  destruct (pulse_value _ _); [|reflexivity]. now apply f64_set_pwm_open.
Qed.






Lemma f64_register_of_did_read (self : PCA9685) (r r' : Z) :
  register_of (did_read self r) r' = register_of self r'.
Proof. reflexivity. Qed.

Lemma f64_register_of_initialised (self : PCA9685) (prescale r : Z) :
  register_of (initialised self prescale) r
  = if decide (byte r = 0x00) then 0x20
    else if decide (byte r = 0xFE) then byte prescale
    else register_of self r.
Proof.
  unfold initialised.
  rewrite !f64_register_of_wrote, f64_register_of_did_read, f64_register_of_wrote.
  change (byte 0) with 0. change (byte 254) with 254.
  change (byte 16) with 16. change (byte 32) with 32.
  destruct (decide (byte r = 0)) as [E0|N0]; [reflexivity|].
  destruct (decide (byte r = 254)); reflexivity.
Qed.

Lemma f64_init_pca9685_run (self : PCA9685) :
  is_open (bus self) = true ->
  init_pca9685 self
  = match prescale_value (frequency self) with
    | Ok prescale => (Ok tt, initialised self prescale)
    | Raise e => (Raise e, wrote self 0x00 0x00)
    end.
Proof.
  intros Hopen. unfold init_pca9685, bind at 1.
  rewrite (f64_bus_write_open _ _ self Hopen).
  unfold bind at 1, gets at 1. unfold bind at 1, lift.
  change (frequency (wrote self 0 0)) with (frequency self).
  destruct (prescale_value (frequency self)) as [prescale|e]; [|reflexivity].
  unfold bind at 1. rewrite f64_bus_read_open by reflexivity.
  rewrite f64_register_of_wrote.
  change (byte 0) with 0. cbn [decide_rel decide Z.eq_dec].
  change (Z.lor (Z.land 0 127) 16) with 16. change (Z.lor 0 32) with 32.
  unfold bind. now rewrite !f64_bus_write_open by reflexivity.
Qed.





(** Where the float result and the exact quotient part, and where the
    conversion raises. *)
Lemma f64_conversions_at_the_edges :
  pulse_value 60%float 0.8056640625%float = Ok 197
  /\ pulse_value 70%float 0.5196707589285714%float = Ok 149
  /\ prescale_value 71.8060661764706%float = Ok 84
  /\ prescale_value 1e30%float = Ok (-1)
  /\ prescale_value 1e-306%float = Raise OverflowError
  /\ prescale_value 0%float = Raise ZeroDivisionError
  /\ pulse_value 0%float 1.5%float = Raise ZeroDivisionError
  /\ pulse_value 60%float 0x1p1020%float = Raise OverflowError
  /\ pulse_value 60%float nan = Raise ValueError.
Proof.
  repeat split; vm_compute; reflexivity.
Qed.

(** ** [quick_test_center] of steering_calibration.py *)

Lemma f64_prescale_at_60 : prescale_value 60%float = Ok 100.
Proof. vm_compute. reflexivity. Qed.

(** At 60 Hz no division of [set_pulse] is by zero. *)
Lemma f64_pulse_value_at_60 (p : float) :
  pulse_value 60%float p = float_to_int (pulse_quotient 60%float p).
Proof.
  unfold pulse_value, pulse_quotient, truediv.
  destruct (60 =? 0)%float eqn:E1; [vm_compute in E1; discriminate|].
  destruct (4096 =? 0)%float eqn:E2; [vm_compute in E2; discriminate|].
  destruct (1000000 / 60 / 4096 =? 0)%float eqn:E3; [vm_compute in E3; discriminate|].
  reflexivity.
Qed.

Lemma f64_pulse_value_errors_at_60 (p : float) (e : exn) :
  pulse_value 60%float p = Raise e -> e = OverflowError \/ e = ValueError.
Proof. rewrite f64_pulse_value_at_60. apply f64_float_to_int_errors. Qed.

Lemma f64_count_of_zero_pulse : pulse_value 60%float 0%float = Ok 0.
Proof. vm_compute. reflexivity. Qed.

Lemma f64_close_run (self : PCA9685) : close self = (Ok tt, closed self).
Proof. reflexivity. Qed.

Lemma f64_register_of_closed (self : PCA9685) (r : Z) :
  register_of (closed self) r = register_of self r.
Proof. reflexivity. Qed.

Lemma f64_closed_is_closed (self : PCA9685) : is_open (bus (closed self)) = false.
Proof. reflexivity. Qed.

Lemma f64_wrote_channel_open (self : PCA9685) (ch on off : Z) :
  is_open (bus (wrote_channel self ch on off)) = true
  /\ address (wrote_channel self ch on off) = address self
  /\ frequency (wrote_channel self ch on off) = frequency self.
Proof. repeat split. Qed.

(** The writes of channel 1 leave every register but 0x0A .. 0x0D. *)
Lemma f64_register_of_wrote_channel_1 (self : PCA9685) (on off r : Z) :
  ~ (10 <= byte r <= 13) ->
  register_of (wrote_channel self 1 on off) r = register_of self r.
Proof.
  intros H. unfold wrote_channel.
  change (6 + 4 * 1 + 3) with 13. change (6 + 4 * 1 + 2) with 12.
  change (6 + 4 * 1 + 1) with 11. change (6 + 4 * 1) with 10.
  rewrite !f64_register_of_wrote.
  change (byte 13) with 13. change (byte 12) with 12.
  change (byte 11) with 11. change (byte 10) with 10.
  destruct (decide (byte r = 13)) as [?|_]; [lia|].
  destruct (decide (byte r = 12)) as [?|_]; [lia|].
  destruct (decide (byte r = 11)) as [?|_]; [lia|].
  destruct (decide (byte r = 10)) as [?|_]; [lia|].
  reflexivity.
Qed.

Lemma f64_ticks_of_stopped_channel_1 (self : PCA9685) :
  on_ticks (wrote_channel self 1 0 0) 1 = 0
  /\ off_ticks (wrote_channel self 1 0 0) 1 = 0.
Proof.
  unfold on_ticks, off_ticks, wrote_channel.
  change (6 + 4 * 1 + 3) with 13. change (6 + 4 * 1 + 2) with 12.
  change (6 + 4 * 1 + 1) with 11. change (6 + 4 * 1) with 10.
  rewrite !f64_register_of_wrote.
  change (byte 13) with 13. change (byte 12) with 12.
  change (byte 11) with 11. change (byte 10) with 10.
  change (Z.land 0 255) with 0. change (Z.shiftr 0 8) with 0.
  change (byte 0) with 0.
  split; reflexivity.
Qed.

(** One [set_pulse] on channel 1 of a usable controller at 60 Hz: it returns
    or raises OverflowError or ValueError, and either way the controller is
    still usable at 60 Hz and holds what [base] holds outside 0x0A .. 0x0D. *)
Lemma f64_set_pulse_channel_1_keeps (base self : PCA9685) (p : float) :
  is_open (bus self) = true ->
  frequency self = 60%float ->
  (forall r : Z, ~ (10 <= byte r <= 13) -> register_of self r = register_of base r) ->
  exists self' : PCA9685,
    set_pulse 1 p self
    = (match pulse_value 60%float p with Ok _ => Ok tt | Raise e => Raise e end, self')
    /\ is_open (bus self') = true
    /\ frequency self' = 60%float
    /\ (forall r : Z, ~ (10 <= byte r <= 13) -> register_of self' r = register_of base r).
Proof.
  intros Hopen Hf Hr. rewrite f64_set_pulse_run, Hf by exact Hopen.
  destruct (pulse_value 60%float p) as [t|e].
  - exists (wrote_channel self 1 0 t).
    split; [reflexivity|]. split; [reflexivity|]. split; [exact Hf|].
    intros r H. rewrite f64_register_of_wrote_channel_1 by exact H. now apply Hr.
  - exists self. auto.
Qed.

(** The body and the [finally] block of [quick_test_center], run on a usable
    controller at 60 Hz. *)
Lemma f64_quick_test_run (base : PCA9685) (center_ms : float) :
  is_open (bus base) = true ->
  frequency base = 60%float ->
  exists (r : result unit) (self : PCA9685),
    try_finally
      (set_pulse 1 center_ms ;;
       set_pulse 1 (center_ms - 0.3)%float ;;
       set_pulse 1 center_ms ;;
       set_pulse 1 (center_ms + 0.3)%float ;;
       set_pulse 1 center_ms)
      (set_pulse 1 0%float ;; close)
      base
    = (r, closed (wrote_channel self 1 0 0))
    /\ (forall x : Z, ~ (10 <= byte x <= 13) -> register_of self x = register_of base x)
    /\ (r = Ok tt \/ r = Raise OverflowError \/ r = Raise ValueError)
    /\ (r = Ok tt <->
        exists t1 t2 t3 : Z,
          pulse_value 60%float center_ms = Ok t1
          /\ pulse_value 60%float (center_ms - 0.3)%float = Ok t2
          /\ pulse_value 60%float (center_ms + 0.3)%float = Ok t3).
Proof.
  intros Hopen Hf.
  assert (Fin : forall (r : result unit) (s : PCA9685),
            is_open (bus s) = true -> frequency s = 60%float ->
            match (set_pulse 1 0%float ;; close) s with
            | (Ok _, s'') => (r, s'')
            | (Raise e, s'') => (Raise e, s'')
            end = (r, closed (wrote_channel s 1 0 0))).
  { intros r s Ho Hfs. unfold bind.
    rewrite f64_set_pulse_run, Hfs, f64_count_of_zero_pulse by exact Ho.
    reflexivity. }
  assert (Err : forall (p : float) (e : exn),
            pulse_value 60%float p = Raise e ->
            Raise (A:=unit) e = Ok tt \/ Raise (A:=unit) e = Raise OverflowError
            \/ Raise (A:=unit) e = Raise ValueError).
  { intros p e H. right.
    destruct (f64_pulse_value_errors_at_60 p e H) as [-> | ->]; auto. }
  unfold try_finally.
  destruct (f64_set_pulse_channel_1_keeps base base center_ms Hopen Hf)
    as (s1 & E1 & O1 & F1 & R1); [trivial|].
  unfold bind at 1. rewrite E1.
  destruct (pulse_value 60%float center_ms) as [t1|e1] eqn:P1.
  2:{ exists (Raise e1), s1. rewrite Fin by assumption.
      split; [reflexivity|]. split; [exact R1|]. split; [now apply (Err center_ms)|].
      split; [discriminate|]. intros (? & ? & ? & [=] & _). }
  destruct (f64_set_pulse_channel_1_keeps base s1 (center_ms - 0.3)%float O1 F1 R1)
    as (s2 & E2 & O2 & F2 & R2).
  unfold bind at 1. rewrite E2.
  destruct (pulse_value 60%float (center_ms - 0.3)%float) as [t2|e2] eqn:P2.
  2:{ exists (Raise e2), s2. rewrite Fin by assumption.
      split; [reflexivity|]. split; [exact R2|].
      split; [now apply (Err (center_ms - 0.3)%float)|].
      split; [discriminate|]. intros (? & ? & ? & _ & [=] & _). }
  destruct (f64_set_pulse_channel_1_keeps base s2 center_ms O2 F2 R2)
    as (s3 & E3 & O3 & F3 & R3).
  unfold bind at 1. rewrite E3, P1.
  destruct (f64_set_pulse_channel_1_keeps base s3 (center_ms + 0.3)%float O3 F3 R3)
    as (s4 & E4 & O4 & F4 & R4).
  unfold bind at 1. rewrite E4.
  destruct (pulse_value 60%float (center_ms + 0.3)%float) as [t3|e3] eqn:P3.
  2:{ exists (Raise e3), s4. rewrite Fin by assumption.
      split; [reflexivity|]. split; [exact R4|].
      split; [now apply (Err (center_ms + 0.3)%float)|].
      split; [discriminate|]. intros (? & ? & ? & _ & _ & [=]). }
  destruct (f64_set_pulse_channel_1_keeps base s4 center_ms O4 F4 R4)
    as (s5 & E5 & O5 & F5 & R5).
  rewrite E5, P1.
  exists (Ok tt), s5. rewrite Fin by assumption.
  split; [reflexivity|]. split; [exact R5|]. split; [auto|].
  split; [|reflexivity]. intros _. now exists t1, t2, t3.
Qed.

(** X15.  [quick_test_center(center_ms)], for every float [center_ms] and
    every prior chip state, runs its [finally] block to the end: the pulse
    of width 0 is converted to the count 0 and written, and the bus is
    closed.  It ends with channel 1 at ON 0 and OFF 0, the other channels
    as they were, the mode register at 0x20 and the prescale register at
    100.  The call returns when the three conversions of the body do
    ([center_ms], [center_ms - 0.3], [center_ms + 0.3]); otherwise, the
    quotient being an infinity or a NaN, it raises OverflowError or
    ValueError once the [finally] block is done. *)
Theorem X15_quick_test_center_always_stops_the_servo
    (regs : gmap (Z * Z) Z) (center_ms : float) :
  exists (r : result unit) (pwm' : PCA9685),
    quick_test_center regs center_ms = (r, Some pwm')
    /\ is_open (bus pwm') = false
    /\ on_ticks pwm' 1 = 0
    /\ off_ticks pwm' 1 = 0
    /\ register_of pwm' 0x00 = 0x20
    /\ register_of pwm' 0xFE = 100
    /\ (forall ch : Z, 0 <= ch <= 15 -> ch <> 1 ->
          on_ticks pwm' ch = on_ticks (mkPCA9685 (SMBus_open regs) 0x40 60%float) ch
          /\ off_ticks pwm' ch = off_ticks (mkPCA9685 (SMBus_open regs) 0x40 60%float) ch)
    /\ (r = Ok tt \/ r = Raise OverflowError \/ r = Raise ValueError)
    /\ (r = Ok tt <->
        exists t1 t2 t3 : Z,
          pulse_value 60%float center_ms = Ok t1
          /\ pulse_value 60%float (center_ms - 0.3)%float = Ok t2
          /\ pulse_value 60%float (center_ms + 0.3)%float = Ok t3).
Proof.
  unfold quick_test_center, PCA9685_new.
  rewrite f64_init_pca9685_run by reflexivity.
  change (frequency (mkPCA9685 (SMBus_open regs) 64 60%float)) with 60%float.
  rewrite f64_prescale_at_60.
  set (base := mkPCA9685 (SMBus_open regs) 64 60%float).
  destruct (f64_quick_test_run (initialised base 100) center_ms)
    as (r & s & E & Rs & Hr & Hok); [reflexivity | reflexivity |].
  rewrite E. exists r, (closed (wrote_channel s 1 0 0)).
  split; [reflexivity|].
  split; [apply f64_closed_is_closed|].
  destruct (f64_ticks_of_stopped_channel_1 s) as [On Off].
  split; [exact On|]. split; [exact Off|].
  assert (Reg : forall x : Z, ~ (10 <= byte x <= 13) ->
            register_of (closed (wrote_channel s 1 0 0)) x
            = register_of (initialised base 100) x).
  { intros x H. rewrite f64_register_of_closed, f64_register_of_wrote_channel_1 by exact H.
    now apply Rs. }
  split.
  { rewrite Reg by (change (byte 0) with 0; lia).
    rewrite f64_register_of_initialised. reflexivity. }
  split.
  { rewrite Reg by (change (byte 254) with 254; lia).
    rewrite f64_register_of_initialised. reflexivity. }
  split; [|split; assumption].
  intros ch Hch Hne. unfold on_ticks, off_ticks.
  assert (B : forall k : Z, 0 <= k <= 3 ->
            register_of (closed (wrote_channel s 1 0 0)) (6 + 4 * ch + k)
            = register_of base (6 + 4 * ch + k)).
  { intros k Hk. rewrite Reg by (rewrite (byte_small (6 + 4 * ch + k)) by lia; lia).
    rewrite f64_register_of_initialised.
    rewrite (byte_small (6 + 4 * ch + k)) by lia.
    destruct (decide (6 + 4 * ch + k = 0)) as [?|_]; [lia|].
    destruct (decide (6 + 4 * ch + k = 254)) as [?|_]; [lia|].
    reflexivity. }
  generalize (B 0), (B 1), (B 2), (B 3). rewrite Z.add_0_r.
  intros -> -> -> ->; [split; reflexivity | lia | lia | lia | lia].
Qed.

(** The two outcomes, on a chip never written: at the default center the
    call returns; at a center of 2^1020 ms the first conversion raises
    OverflowError, and the transfers are those of the constructor and the
    four writes that zero channel 1. *)
Lemma f64_quick_test_center_outcomes :
  fst (quick_test_center ∅ 1.5%float) = Ok tt
  /\ fst (quick_test_center ∅ 0x1p1020%float) = Raise OverflowError
  /\ match snd (quick_test_center ∅ 0x1p1020%float) with
     | Some pwm' =>
       is_open (bus pwm') = false
       /\ writes (wire (bus pwm'))
          = [(0x00, 0x00); (0x00, 0x10); (0xFE, 100); (0x00, 0x00); (0x00, 0x20);
             (0x0A, 0); (0x0B, 0); (0x0C, 0); (0x0D, 0)]
     | None => False
     end.
Proof.
  split; [vm_compute; reflexivity|].
  split; [vm_compute; reflexivity|].
  vm_compute. split; reflexivity.
Qed.

End Binary64DriverFacts.
